(** * ts_MTDome: the analytic azimuth motion engine and the AMCS status mock

    A shallow embedding of
    - [python/lsst/ts/MTDome/mock_llc/mock_motion/azimuth_motion.py]
      (class [AzimuthMotion]) and
    - [python/lsst/ts/Dome/mock_llc_statuses/amcs_status.py]
      (class [AmcsStatus]),
    together with the properties the specification states about them.

    Numbers.  The Python code computes with floats.  The engine is modelled
    in exact arithmetic over the reals [R]; comparisons are the decision
    procedures of the standard library ([Rge_dec], [Rlt_dec], ...).  A
    query time may also be NaN or infinite, for which Python's comparisons
    behave differently: the arms of the query are modelled at float times
    as well, and agree with the real ones at finite times.  The
    status mock assigns [math.inf] and [-math.inf] to one of its fields, so
    its fields are modelled as extended values (a real, an infinity or a
    NaN) with the IEEE rules for the special values. *)

From Stdlib Require Import Reals Lra ZArith Lia List Bool String.
Import ListNotations.
Local Open Scope R_scope.

(** ** Shared types *)

(** [MotionState] of [lsst.ts.idl.enums]: the six members the two classes
    assign or test. *)
Inductive MotionState : Set :=
| STOPPED | MOVING | CRAWLING | PARKING | PARKED | STOPPING.

Definition MotionState_eqb (a b : MotionState) : bool :=
  match a, b with
  | STOPPED, STOPPED | MOVING, MOVING | CRAWLING, CRAWLING
  | PARKING, PARKING | PARKED, PARKED | STOPPING, STOPPING => true
  | _, _ => false
  end.

(** Python's [x in [a; b; ...]] on motion states. *)
Definition state_in (x : MotionState) (l : list MotionState) : bool :=
  existsb (MotionState_eqb x) l.

(** The exceptions the modelled code can raise. *)
Inductive exn : Set := ValueError | ZeroDivisionError | KeyError.

Inductive result (A : Type) : Type :=
| Ok (a : A)
| Raise (e : exn).
Arguments Ok {A} a.
Arguments Raise {A} e.

(** Python's float division: [x / y] raises [ZeroDivisionError] when the
    divisor is zero. *)
Definition py_div (x y : R) : result R :=
  if Req_dec_T y 0 then Raise ZeroDivisionError else Ok (x / y).

(** ** Methods as state transformers

    A method of a Python object reads and assigns the fields of [self] and
    either returns a value or raises.  When it raises, the assignments made
    so far stay: the object is left as it was at the [raise]. *)
Module Method.

Definition M (S A : Type) : Type := S -> result A * S.

Definition ret {S A} (a : A) : M S A := fun s => (Ok a, s).

Definition raise {S A} (e : exn) : M S A := fun s => (Raise e, s).

Definition bind {S A B} (m : M S A) (k : A -> M S B) : M S B :=
  fun s =>
    match m s with
    | (Ok a, s') => k a s'
    | (Raise e, s') => (Raise e, s')
    end.

(** Read something off [self]. *)
Definition read {S A} (f : S -> A) : M S A := fun s => (Ok (f s), s).

(** Assign to [self]. *)
Definition assign {S} (f : S -> S) : M S unit := fun s => (Ok tt, f s).

(** Call a method that does not assign to [self] and may raise. *)
Definition call {S A} (f : S -> result A) : M S A := fun s => (f s, s).

End Method.

Declare Scope method_scope.
Delimit Scope method_scope with method.
Notation "x <- m ;; k" := (Method.bind m (fun x => k))
  (at level 61, m at next level, right associativity) : method_scope.
Notation "' p <- m ;; k" := (Method.bind m (fun x => let p := x in k))
  (at level 61, p pattern, m at next level, right associativity) : method_scope.
Notation "m ;; k" := (Method.bind m (fun _ => k))
  (at level 61, right associativity) : method_scope.

(** ** Angles *)
Module Angle.

(** [math.degrees]. *)
Definition degrees (x : R) : R := x * 180 / PI.

(** The [.rad] attribute of an angle given in degrees. *)
Definition rad (d : R) : R := d * PI / 180.

(** Modelled from the spec: [salobj.angle_wrap_nonnegative], which is not
    part of the sources at hand.  The specification describes it as the
    normalisation of an angle into [[0, 360)] degrees, that is the angle
    minus the whole turns it contains. *)
Definition angle_wrap_nonnegative (d : R) : R :=
  d - 360 * IZR (Zfloor (d / 360)).

(** Line 184 of [azimuth_motion.py]:
    [salobj.angle_wrap_nonnegative(math.degrees(position)).rad]. *)
Definition wrap (position : R) : R :=
  rad (angle_wrap_nonnegative (degrees position)).

End Angle.

(** ** Floats with their special values

    Finite values are exact reals; the two infinities and NaN follow the
    IEEE rules Python applies to them.  Rounding and overflow of finite
    operations are outside the model. *)
Module Float.

Inductive t : Type := Fin (r : R) | PInf | NInf | NaN.

Definition neg (x : t) : t :=
  match x with
  | Fin r => Fin (- r)
  | PInf => NInf
  | NInf => PInf
  | NaN => NaN
  end.

Definition add (x y : t) : t :=
  match x, y with
  | NaN, _ | _, NaN => NaN
  | Fin a, Fin b => Fin (a + b)
  | PInf, NInf | NInf, PInf => NaN
  | PInf, _ | _, PInf => PInf
  | NInf, _ | _, NInf => NInf
  end.

Definition sub (x y : t) : t := add x (neg y).

(** An infinity times a finite factor: the sign of the product, NaN for a
    zero factor. *)
Definition inf_times (positive : bool) (r : R) : t :=
  if Rlt_dec 0 r then (if positive then PInf else NInf)
  else if Rlt_dec r 0 then (if positive then NInf else PInf)
  else NaN.

Definition mul (x y : t) : t :=
  match x, y with
  | NaN, _ | _, NaN => NaN
  | Fin a, Fin b => Fin (a * b)
  | Fin a, PInf | PInf, Fin a => inf_times true a
  | Fin a, NInf | NInf, Fin a => inf_times false a
  | PInf, PInf | NInf, NInf => PInf
  | PInf, NInf | NInf, PInf => NInf
  end.

(** Comparisons: false as soon as one side is NaN. *)
Definition ltb (x y : t) : bool :=
  match x, y with
  | NaN, _ | _, NaN => false
  | Fin a, Fin b => if Rlt_dec a b then true else false
  | _, NInf => false
  | NInf, _ => true
  | PInf, _ => false
  | Fin _, PInf => true
  end.

Definition leb (x y : t) : bool :=
  match x, y with
  | NaN, _ | _, NaN => false
  | Fin a, Fin b => if Rle_dec a b then true else false
  | NInf, _ => true
  | _, PInf => true
  | _, NInf => false
  | PInf, _ => false
  end.

Definition gtb (x y : t) : bool := ltb y x.

Definition geb (x y : t) : bool := leb y x.

Definition is_finite (x : t) : Prop :=
  match x with Fin _ => True | _ => False end.

(** A float divided by a finite divisor that is not zero. *)
Definition div_fin (x : t) (y : R) : t :=
  match x with
  | Fin a => Fin (a / y)
  | PInf => inf_times true y
  | NInf => inf_times false y
  | NaN => NaN
  end.

End Float.

(** ** The azimuth motion engine ([azimuth_motion.py]) *)
Module AzimuthMotion.

Import Method.
Local Open Scope method_scope.

(** The fields of [self].  They are declared by [BaseLlcMotion.__init__],
    which is not part of the sources at hand; the names are the ones the
    methods of [AzimuthMotion] read and assign. *)
Record t : Type := mk {
  start_position : R;
  max_speed : R;
  start_tai : R;
  end_position : R;
  end_tai : R;
  crawl_velocity : R;
  commanded_motion_state : MotionState
}.

Definition set_start_position (v : R) (self : t) : t :=
  mk v (max_speed self) (start_tai self) (end_position self)
     (end_tai self) (crawl_velocity self) (commanded_motion_state self).

Definition set_start_tai (v : R) (self : t) : t :=
  mk (start_position self) (max_speed self) v (end_position self)
     (end_tai self) (crawl_velocity self) (commanded_motion_state self).

Definition set_end_position (v : R) (self : t) : t :=
  mk (start_position self) (max_speed self) (start_tai self) v
     (end_tai self) (crawl_velocity self) (commanded_motion_state self).

Definition set_end_tai (v : R) (self : t) : t :=
  mk (start_position self) (max_speed self) (start_tai self)
     (end_position self) v (crawl_velocity self)
     (commanded_motion_state self).

Definition set_crawl_velocity (v : R) (self : t) : t :=
  mk (start_position self) (max_speed self) (start_tai self)
     (end_position self) (end_tai self) v (commanded_motion_state self).

Definition set_commanded_motion_state (v : MotionState) (self : t) : t :=
  mk (start_position self) (max_speed self) (start_tai self)
     (end_position self) (end_tai self) (crawl_velocity self) v.

(** Modelled from the spec: [BaseLlcMotion._get_distance], which is not
    part of the sources at hand.  The specification interpolates the
    transit leg with [end_position - start_position] and takes the sign of
    the velocity from it. *)
Definition _get_distance (self : t) : R :=
  end_position self - start_position self.

(** Modelled from the spec: [BaseLlcMotion._get_duration], which is not
    part of the sources at hand.  The specification gives
    [duration = |end_position - start_position| / max_speed], and 0 when
    the commanded state is [CRAWLING] (no transit leg).  The division is
    Python's. *)
Definition _get_duration (self : t) : result R :=
  if MotionState_eqb (commanded_motion_state self) CRAWLING then Ok 0
  else py_div (Rabs (_get_distance self)) (max_speed self).

(** The three arms of the [if]/[elif]/[else] of
    [get_position_velocity_and_motion_state] (lines 136, 165, 169).
    [which_arm] below takes them at a query time that is a real number;
    [which_arm_float] further down takes them at any float, NaN and the
    infinities included. *)
Inductive arm : Set := TransitDone | TimeTravel | InTransit.

Definition which_arm (self : t) (tai : R) : arm :=
  if Rge_dec tai (end_tai self) then TransitDone
  else if Rlt_dec tai (start_tai self) then TimeTravel
  else InTransit.

(** Lines 136-182: position, velocity and motion state before the wrap of
    line 184. *)
Definition unwrapped_position_velocity_and_motion_state
    (self : t) (tai : R) : result (R * R * MotionState) :=
  match which_arm self tai with
  | TransitDone =>
      if state_in (commanded_motion_state self) [PARKING; PARKED] then
        Ok (end_position self, 0, PARKED)
      else if state_in (commanded_motion_state self) [STOPPING; STOPPED] then
        Ok (end_position self, 0, STOPPED)
      else
        let diff_since_crawl_started := tai - end_tai self in
        let calculation_position :=
          if MotionState_eqb (commanded_motion_state self) CRAWLING
          then start_position self else end_position self in
        let position :=
          calculation_position
          + crawl_velocity self * diff_since_crawl_started in
        if Req_dec_T (crawl_velocity self) 0
        then Ok (position, 0, STOPPED)
        else Ok (position, crawl_velocity self, CRAWLING)
  | TimeTravel => Raise ValueError
  | InTransit =>
      match py_div (tai - start_tai self) (end_tai self - start_tai self) with
      | Raise e => Raise e
      | Ok frac_time =>
          let distance := _get_distance self in
          let position := start_position self + distance * frac_time in
          let velocity :=
            if Rlt_dec distance 0 then - max_speed self
            else max_speed self in
          if MotionState_eqb (commanded_motion_state self) PARKING then
            Ok (position, velocity, PARKING)
          else if MotionState_eqb (commanded_motion_state self) STOPPING then
            Ok (position, 0, STOPPED)
          else
            Ok (position, velocity, MOVING)
      end
  end.

(** [get_position_velocity_and_motion_state]: lines 136-185.  It assigns
    nothing to [self]. *)
Definition get_position_velocity_and_motion_state
    (self : t) (tai : R) : result (R * R * MotionState) :=
  match unwrapped_position_velocity_and_motion_state self tai with
  | Ok (position, velocity, motion_state) =>
      Ok (Angle.wrap position, velocity, motion_state)
  | Raise e => Raise e
  end.

(** The tests of lines 136 and 165 at a float query time.  Both are false
    for NaN, which therefore takes the [else] of line 169. *)
Definition which_arm_float (self : t) (tai : Float.t) : arm :=
  if Float.geb tai (Float.Fin (end_tai self)) then TransitDone
  else if Float.ltb tai (Float.Fin (start_tai self)) then TimeTravel
  else InTransit.

(** Python's division of a float by a finite divisor: it raises for a zero
    divisor whatever the dividend, NaN and the infinities included. *)
Definition py_div_float (x : Float.t) (y : R) : result Float.t :=
  if Req_dec_T y 0 then Raise ZeroDivisionError else Ok (Float.div_fin x y).

(** Lines 136-182 at a float query time: the position (a float, since the
    time enters it), the velocity and the motion state before the wrap of
    line 184.  At a real time this is
    [unwrapped_position_velocity_and_motion_state]. *)
Definition unwrapped_at_float_time
    (self : t) (tai : Float.t) : result (Float.t * R * MotionState) :=
  match which_arm_float self tai with
  | TransitDone =>
      if state_in (commanded_motion_state self) [PARKING; PARKED] then
        Ok (Float.Fin (end_position self), 0, PARKED)
      else if state_in (commanded_motion_state self) [STOPPING; STOPPED] then
        Ok (Float.Fin (end_position self), 0, STOPPED)
      else
        let diff_since_crawl_started :=
          Float.sub tai (Float.Fin (end_tai self)) in
        let calculation_position :=
          if MotionState_eqb (commanded_motion_state self) CRAWLING
          then start_position self else end_position self in
        let position :=
          Float.add (Float.Fin calculation_position)
            (Float.mul (Float.Fin (crawl_velocity self))
               diff_since_crawl_started) in
        if Req_dec_T (crawl_velocity self) 0
        then Ok (position, 0, STOPPED)
        else Ok (position, crawl_velocity self, CRAWLING)
  | TimeTravel => Raise ValueError
  | InTransit =>
      match py_div_float (Float.sub tai (Float.Fin (start_tai self)))
              (end_tai self - start_tai self) with
      | Raise e => Raise e
      | Ok frac_time =>
          let distance := _get_distance self in
          let position :=
            Float.add (Float.Fin (start_position self))
              (Float.mul (Float.Fin distance) frac_time) in
          let velocity :=
            if Rlt_dec distance 0 then - max_speed self
            else max_speed self in
          if MotionState_eqb (commanded_motion_state self) PARKING then
            Ok (position, velocity, PARKING)
          else if MotionState_eqb (commanded_motion_state self) STOPPING then
            Ok (position, 0, STOPPED)
          else
            Ok (position, velocity, MOVING)
      end
  end.

(** [set_target_position_and_velocity]: lines 100-114. *)
Definition set_target_position_and_velocity
    (start_tai' end_position' crawl_velocity' : R)
    (motion_state : MotionState) : M t R :=
  max_speed_ <- read max_speed ;;
  if Rgt_dec (Rabs crawl_velocity') max_speed_ then raise ValueError
  else if negb (state_in motion_state [MOVING; CRAWLING])
  then raise ValueError
  else
    assign (set_commanded_motion_state motion_state) ;;
    assign (set_start_tai start_tai') ;;
    assign (set_end_position end_position') ;;
    assign (set_crawl_velocity crawl_velocity') ;;
    duration <- call _get_duration ;;
    start_tai_ <- read start_tai ;;
    assign (set_end_tai (start_tai_ + duration)) ;;
    ret duration.

(** [stop]: lines 197-204.  No assignment to [_end_tai]. *)
Definition stop (start_tai' : R) : M t unit :=
  '(position, velocity, motion_state) <-
      call (fun self => get_position_velocity_and_motion_state self start_tai') ;;
  assign (set_start_tai start_tai') ;;
  assign (set_start_position position) ;;
  assign (set_end_position position) ;;
  assign (set_crawl_velocity 0) ;;
  assign (set_commanded_motion_state STOPPING).

(** [park]: lines 216-225. *)
Definition park (start_tai' : R) : M t R :=
  '(position, velocity, motion_state) <-
      call (fun self => get_position_velocity_and_motion_state self start_tai') ;;
  assign (set_start_tai start_tai') ;;
  assign (set_start_position position) ;;
  assign (set_end_position 0) ;;
  assign (set_crawl_velocity 0) ;;
  assign (set_commanded_motion_state PARKING) ;;
  duration <- call _get_duration ;;
  start_tai_ <- read start_tai ;;
  assign (set_end_tai (start_tai_ + duration)) ;;
  read end_tai.

(** What the two checks of lines 100-106 let through. *)
Definition valid_target (self : t) (crawl_velocity' : R)
    (motion_state : MotionState) : Prop :=
  Rabs crawl_velocity' <= max_speed self
  /\ (motion_state = MOVING \/ motion_state = CRAWLING).

(** The times at which a query is answered (lines 136 and 165): not before
    both the end and the start of the current leg. *)
Definition answered (self : t) (tai : R) : Prop :=
  end_tai self <= tai \/ start_tai self <= tai.

(** An engine at rest at [position] since [tai]: no transit leg, no crawl,
    commanded [STOPPED].  The starting point of the scenarios below. *)
Definition resting (position max_speed' tai : R) : t :=
  mk position max_speed' tai position tai 0 STOPPED.

End AzimuthMotion.

(** ** The AMCS status mock ([amcs_status.py]) *)
Module AmcsStatus.

Import Method.
Local Open Scope method_scope.

(** [OnOff] of [on_off.py]: the two members the docstrings name. *)
Inductive OnOff : Set := ON | OFF.

(** [OnOff[action]]: the lookup of a member by its name. *)
Definition OnOff_getitem (action : string) : result OnOff :=
  if String.eqb action "ON" then Ok ON
  else if String.eqb action "OFF" then Ok OFF
  else Raise KeyError.

Definition _NUM_MOTORS : nat := 5.

(** The dictionary [determine_status] stores in [self.llc_status]. *)
Record LlcStatus : Type := mkLlcStatus {
  status_error : list string;
  status_status : MotionState;
  status_fans : OnOff;
  status_inflate : OnOff;
  positionActual : Float.t;
  positionCommanded : Float.t;
  velocityActual : Float.t;
  velocityCommanded : Float.t;
  driveTorqueActual : list Float.t;
  driveTorqueCommanded : list Float.t;
  driveCurrentActual : list Float.t;
  driveTemperature : list Float.t;
  encoderHeadRaw : list Float.t;
  encoderHeadCalibrated : list Float.t;
  resolverRaw : list Float.t;
  resolverCalibrated : list Float.t;
  timestamp : R
}.

(** The attributes of [self]: those of [__init__] (lines 49-74) and the two
    of [BaseMockStatus], [command_time_tai] and [llc_status]. *)
Record t : Type := mk {
  jmax : Float.t;
  amax : Float.t;
  vmax : Float.t;
  motion_velocity : Float.t;
  crawl_velocity : Float.t;
  status : MotionState;
  error : list string;
  fans_enabled : OnOff;
  seal_inflated : OnOff;
  position_orig : Float.t;
  position_actual : Float.t;
  position_commanded : Float.t;
  velocity_actual : Float.t;
  velocity_commanded : Float.t;
  drive_torque_actual : list Float.t;
  drive_torque_commanded : list Float.t;
  drive_current_actual : list Float.t;
  drive_temperature : list Float.t;
  encoder_head_raw : list Float.t;
  encoder_head_calibrated : list Float.t;
  resolver_raw : list Float.t;
  resolver_calibrated : list Float.t;
  command_time_tai : R;
  llc_status : option LlcStatus
}.

Definition set_motion_velocity (v : Float.t) (self : t) : t :=
  mk (jmax self) (amax self) (vmax self) v (crawl_velocity self) (status
     self) (error self) (fans_enabled self) (seal_inflated self)
     (position_orig self) (position_actual self) (position_commanded self)
     (velocity_actual self) (velocity_commanded self) (drive_torque_actual
     self) (drive_torque_commanded self) (drive_current_actual self)
     (drive_temperature self) (encoder_head_raw self)
     (encoder_head_calibrated self) (resolver_raw self)
     (resolver_calibrated self) (command_time_tai self) (llc_status self).

Definition set_crawl_velocity (v : Float.t) (self : t) : t :=
  mk (jmax self) (amax self) (vmax self) (motion_velocity self) v (status
     self) (error self) (fans_enabled self) (seal_inflated self)
     (position_orig self) (position_actual self) (position_commanded self)
     (velocity_actual self) (velocity_commanded self) (drive_torque_actual
     self) (drive_torque_commanded self) (drive_current_actual self)
     (drive_temperature self) (encoder_head_raw self)
     (encoder_head_calibrated self) (resolver_raw self)
     (resolver_calibrated self) (command_time_tai self) (llc_status self).

Definition set_status (v : MotionState) (self : t) : t :=
  mk (jmax self) (amax self) (vmax self) (motion_velocity self)
     (crawl_velocity self) v (error self) (fans_enabled self)
     (seal_inflated self) (position_orig self) (position_actual self)
     (position_commanded self) (velocity_actual self) (velocity_commanded
     self) (drive_torque_actual self) (drive_torque_commanded self)
     (drive_current_actual self) (drive_temperature self)
     (encoder_head_raw self) (encoder_head_calibrated self) (resolver_raw
     self) (resolver_calibrated self) (command_time_tai self) (llc_status
     self).

Definition set_fans_enabled (v : OnOff) (self : t) : t :=
  mk (jmax self) (amax self) (vmax self) (motion_velocity self)
     (crawl_velocity self) (status self) (error self) v (seal_inflated
     self) (position_orig self) (position_actual self) (position_commanded
     self) (velocity_actual self) (velocity_commanded self)
     (drive_torque_actual self) (drive_torque_commanded self)
     (drive_current_actual self) (drive_temperature self)
     (encoder_head_raw self) (encoder_head_calibrated self) (resolver_raw
     self) (resolver_calibrated self) (command_time_tai self) (llc_status
     self).

Definition set_seal_inflated (v : OnOff) (self : t) : t :=
  mk (jmax self) (amax self) (vmax self) (motion_velocity self)
     (crawl_velocity self) (status self) (error self) (fans_enabled self)
     v (position_orig self) (position_actual self) (position_commanded
     self) (velocity_actual self) (velocity_commanded self)
     (drive_torque_actual self) (drive_torque_commanded self)
     (drive_current_actual self) (drive_temperature self)
     (encoder_head_raw self) (encoder_head_calibrated self) (resolver_raw
     self) (resolver_calibrated self) (command_time_tai self) (llc_status
     self).

Definition set_position_orig (v : Float.t) (self : t) : t :=
  mk (jmax self) (amax self) (vmax self) (motion_velocity self)
     (crawl_velocity self) (status self) (error self) (fans_enabled self)
     (seal_inflated self) v (position_actual self) (position_commanded
     self) (velocity_actual self) (velocity_commanded self)
     (drive_torque_actual self) (drive_torque_commanded self)
     (drive_current_actual self) (drive_temperature self)
     (encoder_head_raw self) (encoder_head_calibrated self) (resolver_raw
     self) (resolver_calibrated self) (command_time_tai self) (llc_status
     self).

Definition set_position_actual (v : Float.t) (self : t) : t :=
  mk (jmax self) (amax self) (vmax self) (motion_velocity self)
     (crawl_velocity self) (status self) (error self) (fans_enabled self)
     (seal_inflated self) (position_orig self) v (position_commanded self)
     (velocity_actual self) (velocity_commanded self) (drive_torque_actual
     self) (drive_torque_commanded self) (drive_current_actual self)
     (drive_temperature self) (encoder_head_raw self)
     (encoder_head_calibrated self) (resolver_raw self)
     (resolver_calibrated self) (command_time_tai self) (llc_status self).

Definition set_position_commanded (v : Float.t) (self : t) : t :=
  mk (jmax self) (amax self) (vmax self) (motion_velocity self)
     (crawl_velocity self) (status self) (error self) (fans_enabled self)
     (seal_inflated self) (position_orig self) (position_actual self) v
     (velocity_actual self) (velocity_commanded self) (drive_torque_actual
     self) (drive_torque_commanded self) (drive_current_actual self)
     (drive_temperature self) (encoder_head_raw self)
     (encoder_head_calibrated self) (resolver_raw self)
     (resolver_calibrated self) (command_time_tai self) (llc_status self).

Definition set_command_time_tai (v : R) (self : t) : t :=
  mk (jmax self) (amax self) (vmax self) (motion_velocity self)
     (crawl_velocity self) (status self) (error self) (fans_enabled self)
     (seal_inflated self) (position_orig self) (position_actual self)
     (position_commanded self) (velocity_actual self) (velocity_commanded
     self) (drive_torque_actual self) (drive_torque_commanded self)
     (drive_current_actual self) (drive_temperature self)
     (encoder_head_raw self) (encoder_head_calibrated self) (resolver_raw
     self) (resolver_calibrated self) v (llc_status self).

Definition set_llc_status (v : option LlcStatus) (self : t) : t :=
  mk (jmax self) (amax self) (vmax self) (motion_velocity self)
     (crawl_velocity self) (status self) (error self) (fans_enabled self)
     (seal_inflated self) (position_orig self) (position_actual self)
     (position_commanded self) (velocity_actual self) (velocity_commanded
     self) (drive_torque_actual self) (drive_torque_commanded self)
     (drive_current_actual self) (drive_temperature self)
     (encoder_head_raw self) (encoder_head_calibrated self) (resolver_raw
     self) (resolver_calibrated self) (command_time_tai self) v.

(** [__init__], lines 43-74.  The limits come from [AmcsLimits] and the
    first command time from [BaseMockStatus.__init__]; neither is part of
    the sources at hand, so they are arguments here. *)
Definition init (limits_jmax limits_amax limits_vmax : R) (tai : R) : t :=
  {| jmax := Float.Fin limits_jmax;
     amax := Float.Fin limits_amax;
     vmax := Float.Fin limits_vmax;
     motion_velocity := Float.Fin 0;
     crawl_velocity := Float.Fin 0;
     status := STOPPED;
     error := ["No Error"%string];
     fans_enabled := OFF;
     seal_inflated := OFF;
     position_orig := Float.Fin 0;
     position_actual := Float.Fin 0;
     position_commanded := Float.Fin 0;
     velocity_actual := Float.Fin 0;
     velocity_commanded := Float.Fin 0;
     drive_torque_actual := repeat (Float.Fin 0) _NUM_MOTORS;
     drive_torque_commanded := repeat (Float.Fin 0) _NUM_MOTORS;
     drive_current_actual := repeat (Float.Fin 0) _NUM_MOTORS;
     drive_temperature := repeat (Float.Fin 20) _NUM_MOTORS;
     encoder_head_raw := repeat (Float.Fin 0) _NUM_MOTORS;
     encoder_head_calibrated := repeat (Float.Fin 0) _NUM_MOTORS;
     resolver_raw := repeat (Float.Fin 0) _NUM_MOTORS;
     resolver_calibrated := repeat (Float.Fin 0) _NUM_MOTORS;
     command_time_tai := tai;
     llc_status := None |}.

(** The test of lines 90-100. *)
Definition beyond_commanded (self : t) : bool :=
  (Float.gtb (motion_velocity self) (Float.Fin 0)
   && Float.geb (position_actual self) (position_commanded self))
  || (Float.ltb (motion_velocity self) (Float.Fin 0)
      && Float.leb (position_actual self) (position_commanded self)).

(** Lines 101-134: what is done once the commanded position is reached. *)
Definition at_commanded_position : M t unit :=
  position_commanded_ <- read position_commanded ;;
  assign (set_position_actual position_commanded_) ;;
  status_ <- read status ;;
  if MotionState_eqb status_ MOVING then
    crawl_velocity_ <- read crawl_velocity ;;
    if Float.gtb crawl_velocity_ (Float.Fin 0) then
      assign (set_position_commanded Float.PInf) ;;
      assign (set_motion_velocity crawl_velocity_) ;;
      assign (set_status CRAWLING)
    else if Float.ltb crawl_velocity_ (Float.Fin 0) then
      assign (set_position_commanded Float.NInf) ;;
      assign (set_motion_velocity crawl_velocity_) ;;
      assign (set_status CRAWLING)
    else
      position_actual_ <- read position_actual ;;
      assign (set_position_commanded position_actual_) ;;
      assign (set_motion_velocity crawl_velocity_) ;;
      assign (set_status STOPPED)
  else if MotionState_eqb status_ PARKING then
    position_actual_ <- read position_actual ;;
    assign (set_position_commanded position_actual_) ;;
    assign (set_motion_velocity (Float.Fin 0)) ;;
    assign (set_status PARKED)
  else if MotionState_eqb status_ CRAWLING then
    raise ValueError
  else
    raise ValueError.

(** Lines 135-157. *)
Definition snapshot (current_tai : R) (self : t) : LlcStatus :=
  {| status_error := error self;
     status_status := status self;
     status_fans := fans_enabled self;
     status_inflate := seal_inflated self;
     positionActual := position_actual self;
     positionCommanded := position_commanded self;
     velocityActual := velocity_actual self;
     velocityCommanded := velocity_commanded self;
     driveTorqueActual := drive_torque_actual self;
     driveTorqueCommanded := drive_torque_commanded self;
     driveCurrentActual := drive_current_actual self;
     driveTemperature := drive_temperature self;
     encoderHeadRaw := encoder_head_raw self;
     encoderHeadCalibrated := encoder_head_calibrated self;
     resolverRaw := resolver_raw self;
     resolverCalibrated := resolver_calibrated self;
     timestamp := current_tai |}.

(** [determine_status], lines 80-157. *)
Definition determine_status (current_tai : R) : M t unit :=
  command_time_tai_ <- read command_time_tai ;;
  let time_diff := Float.Fin (current_tai - command_time_tai_) in
  status_ <- read status ;;
  (if negb (MotionState_eqb status_ STOPPED) then
     motion_velocity_ <- read motion_velocity ;;
     let azimuth_step := Float.mul motion_velocity_ time_diff in
     position_orig_ <- read position_orig ;;
     assign (set_position_actual (Float.add position_orig_ azimuth_step)) ;;
     beyond <- read beyond_commanded ;;
     if beyond then at_commanded_position else ret tt
   else ret tt) ;;
  llc_status_ <- read (snapshot current_tai) ;;
  assign (set_llc_status (Some llc_status_)).

(** [moveAz], lines 177-184; [tai] is what [salobj.current_tai()] returns. *)
Definition moveAz (position velocity : Float.t) (tai : R) : M t unit :=
  assign (set_status MOVING) ;;
  position_actual_ <- read position_actual ;;
  assign (set_position_orig position_actual_) ;;
  assign (set_command_time_tai tai) ;;
  assign (set_position_commanded position) ;;
  assign (set_crawl_velocity velocity) ;;
  vmax_ <- read vmax ;;
  assign (set_motion_velocity vmax_) ;;
  position_commanded_ <- read position_commanded ;;
  position_actual_ <- read position_actual ;;
  if Float.ltb position_commanded_ position_actual_
  then assign (set_motion_velocity (Float.neg vmax_))
  else ret tt.

(** [crawlAz], lines 195-204.  The velocity is not checked. *)
Definition crawlAz (velocity : Float.t) (tai : R) : M t unit :=
  position_actual_ <- read position_actual ;;
  assign (set_position_orig position_actual_) ;;
  assign (set_command_time_tai tai) ;;
  assign (set_motion_velocity velocity) ;;
  assign (set_status CRAWLING) ;;
  motion_velocity_ <- read motion_velocity ;;
  if Float.geb motion_velocity_ (Float.Fin 0)
  then assign (set_position_commanded Float.PInf)
  else assign (set_position_commanded Float.NInf).

(** [stopAz], lines 208-209. *)
Definition stopAz (tai : R) : M t unit :=
  assign (set_command_time_tai tai) ;;
  assign (set_status STOPPED).

(** [park], lines 213-217. *)
Definition park (tai : R) : M t unit :=
  assign (set_status PARKING) ;;
  position_actual_ <- read position_actual ;;
  assign (set_position_orig position_actual_) ;;
  assign (set_command_time_tai tai) ;;
  assign (set_position_commanded (Float.Fin 0)) ;;
  vmax_ <- read vmax ;;
  assign (set_motion_velocity (Float.neg vmax_)).

(** [inflate], lines 231-232. *)
Definition inflate (action : string) (tai : R) : M t unit :=
  assign (set_command_time_tai tai) ;;
  value <- call (fun _ => OnOff_getitem action) ;;
  assign (set_seal_inflated value).

(** [fans], lines 246-247. *)
Definition fans (action : string) (tai : R) : M t unit :=
  assign (set_command_time_tai tai) ;;
  value <- call (fun _ => OnOff_getitem action) ;;
  assign (set_fans_enabled value).

(** One call of a public method, with finite positions, velocities and
    times. *)
Inductive command : Type :=
| DoMoveAz (position velocity : R) (tai : R)
| DoCrawlAz (velocity : R) (tai : R)
| DoStopAz (tai : R)
| DoPark (tai : R)
| DoInflate (action : string) (tai : R)
| DoFans (action : string) (tai : R)
| DoDetermineStatus (current_tai : R).

Definition run (c : command) : M t unit :=
  match c with
  | DoMoveAz position velocity tai =>
      moveAz (Float.Fin position) (Float.Fin velocity) tai
  | DoCrawlAz velocity tai => crawlAz (Float.Fin velocity) tai
  | DoStopAz tai => stopAz tai
  | DoPark tai => park tai
  | DoInflate action tai => inflate action tai
  | DoFans action tai => fans action tai
  | DoDetermineStatus current_tai => determine_status current_tai
  end.


(** The telemetry loop: [determine_status] at each time of the list, in
    order; a call that raises ends the loop. *)
Fixpoint polls (times : list R) : M t unit :=
  match times with
  | [] => ret tt
  | current_tai :: later => determine_status current_tai ;; polls later
  end.


(** A mock parked after a park issued at [tai] from position [o]: the
    fields as the arrival of lines 121-124 leaves them. *)
Definition parked_from (o tai : R) (self : t) : Prop :=
  status self = PARKED
  /\ motion_velocity self = Float.Fin 0
  /\ position_orig self = Float.Fin o
  /\ command_time_tai self = tai.

(** Two states of the mock with the same motion: status, velocities and
    positions. *)
Definition same_motion (a b : t) : Prop :=
  status a = status b
  /\ motion_velocity a = motion_velocity b
  /\ crawl_velocity a = crawl_velocity b
  /\ position_orig a = position_orig b
  /\ position_actual a = position_actual b
  /\ position_commanded a = position_commanded b.

(** Whether a call of [determine_status] at [current_tai] enters the
    boundary branch of lines 101-134: the status is not STOPPED and, with
    the position advanced by line 87, the test of lines 90-100 holds. *)
Definition boundary_fires (current_tai : R) (self : t) : bool :=
  negb (MotionState_eqb (status self) STOPPED)
  && beyond_commanded
       (set_position_actual
          (Float.add (position_orig self)
             (Float.mul (motion_velocity self)
                (Float.Fin (current_tai - command_time_tai self))))
          self).


End AmcsStatus.

(** * Properties *)

(** *** Facts on the wrap *)

Lemma degrees_turn (x : R) : Angle.degrees x / 360 = x / (2 * PI).
Proof.
  unfold Angle.degrees. pose proof PI_neq0. field. assumption.
Qed.

(** In radians the wrap removes the whole multiples of 2 pi. *)
Lemma wrap_floor (x : R) :
  Angle.wrap x = x - 2 * PI * IZR (Zfloor (x / (2 * PI))).
Proof.
  unfold Angle.wrap, Angle.angle_wrap_nonnegative.
  rewrite degrees_turn.
  unfold Angle.degrees, Angle.rad. pose proof PI_neq0. field. assumption.
Qed.

Lemma wrap_range (x : R) : 0 <= Angle.wrap x < 2 * PI.
Proof.
  rewrite wrap_floor.
  pose proof PI_RGT_0 as Hpi.
  pose proof (Zfloor_bound (x / (2 * PI))) as [Hlo Hhi].
  assert (Hx : x = x / (2 * PI) * (2 * PI)) by (field; lra).
  set (q := x / (2 * PI)) in *. set (n := IZR (Zfloor q)) in *.
  split.
  - assert (0 <= (q - n) * (2 * PI)) by (apply Rmult_le_pos; lra). lra.
  - assert ((q - n) * (2 * PI) < 1 * (2 * PI))
      by (apply Rmult_lt_compat_r; lra).
    lra.
Qed.

Lemma wrap_shift (x : R) (k : Z) :
  Angle.wrap (x + 2 * PI * IZR k) = Angle.wrap x.
Proof.
  rewrite !wrap_floor.
  pose proof PI_RGT_0 as Hpi.
  replace ((x + 2 * PI * IZR k) / (2 * PI)) with (x / (2 * PI) + IZR k)
    by (field; lra).
  rewrite Zfloor_addz, plus_IZR. ring.
Qed.

(** Inside the principal interval the wrap changes nothing. *)
Lemma wrap_id (x : R) : 0 <= x < 2 * PI -> Angle.wrap x = x.
Proof.
  intros [Hlo Hhi]. rewrite wrap_floor.
  pose proof PI_RGT_0 as Hpi.
  assert (Hfl : Zfloor (x / (2 * PI)) = 0%Z).
  { apply Zfloor_eq. simpl. split.
    - apply Rmult_le_pos; [lra|]. apply Rlt_le, Rinv_0_lt_compat. lra.
    - apply (Rmult_lt_reg_r (2 * PI)); [lra|].
      replace (x / (2 * PI) * (2 * PI)) with x by (field; lra). lra. }
  rewrite Hfl. simpl. ring.
Qed.

Lemma wrap_idem (x : R) : Angle.wrap (Angle.wrap x) = Angle.wrap x.
Proof. apply wrap_id, wrap_range. Qed.

Lemma wrap_0 : Angle.wrap 0 = 0.
Proof. apply wrap_id. pose proof PI_RGT_0. lra. Qed.

(** A lower bound on pi that places small concrete angles inside the
    principal interval. *)
Lemma PI_gt_3 : 3 < PI.
Proof. pose proof PI2_3_2. lra. Qed.

(** ** The engine: which arm a query takes *)

Import AzimuthMotion.

Lemma which_arm_TransitDone (self : t) (tai : R) :
  which_arm self tai = TransitDone <-> end_tai self <= tai.
Proof.
  unfold which_arm.
  destruct (Rge_dec tai (end_tai self)); [split; [lra | reflexivity] |].
  destruct (Rlt_dec tai (start_tai self)); split; (discriminate || lra).
Qed.

Lemma which_arm_TimeTravel (self : t) (tai : R) :
  which_arm self tai = TimeTravel <->
  tai < end_tai self /\ tai < start_tai self.
Proof.
  unfold which_arm.
  destruct (Rge_dec tai (end_tai self)); [split; [discriminate | lra] |].
  destruct (Rlt_dec tai (start_tai self)); split;
    solve [discriminate | lra | reflexivity].
Qed.

Lemma which_arm_InTransit (self : t) (tai : R) :
  which_arm self tai = InTransit <->
  start_tai self <= tai < end_tai self.
Proof.
  unfold which_arm.
  destruct (Rge_dec tai (end_tai self)); [split; [discriminate | lra] |].
  destruct (Rlt_dec tai (start_tai self)); split;
    solve [discriminate | lra | reflexivity].
Qed.

Lemma py_div_nonzero (x y : R) : y <> 0 -> py_div x y = Ok (x / y).
Proof.
  intro Hy. unfold py_div. destruct (Req_dec_T y 0); [contradiction | reflexivity].
Qed.

(** The query is the unwrapped query followed by the wrap. *)
Lemma get_unwrapped (self : t) (tai : R) (p v : R) (m : MotionState) :
  unwrapped_position_velocity_and_motion_state self tai = Ok (p, v, m) ->
  get_position_velocity_and_motion_state self tai = Ok (Angle.wrap p, v, m).
Proof.
  intro H. unfold get_position_velocity_and_motion_state. rewrite H. reflexivity.
Qed.

(** A query raises exactly in the time-travel arm. *)
Lemma unwrapped_cases (self : t) (tai : R) :
  (which_arm self tai = TimeTravel /\
   unwrapped_position_velocity_and_motion_state self tai = Raise ValueError)
  \/ (which_arm self tai <> TimeTravel /\
      exists p v m,
        unwrapped_position_velocity_and_motion_state self tai = Ok (p, v, m)).
Proof.
  unfold unwrapped_position_velocity_and_motion_state.
  destruct (which_arm self tai) eqn:Harm.
  - right. split; [discriminate |].
    destruct (state_in _ [PARKING; PARKED]); [eauto |].
    destruct (state_in _ [STOPPING; STOPPED]); [eauto |].
    destruct (Req_dec_T (crawl_velocity self) 0); eauto.
  - left. split; reflexivity.
  - right. split; [discriminate |].
    apply which_arm_InTransit in Harm.
    rewrite py_div_nonzero by lra.
    destruct (MotionState_eqb _ PARKING); [eauto |].
    destruct (MotionState_eqb _ STOPPING); eauto.
Qed.

Lemma get_cases (self : t) (tai : R) :
  (tai < end_tai self /\ tai < start_tai self /\
   get_position_velocity_and_motion_state self tai = Raise ValueError)
  \/ ((end_tai self <= tai \/ start_tai self <= tai) /\
      exists p v m,
        unwrapped_position_velocity_and_motion_state self tai = Ok (p, v, m)
        /\ get_position_velocity_and_motion_state self tai
           = Ok (Angle.wrap p, v, m)).
Proof.
  destruct (unwrapped_cases self tai) as [[Harm H] | [Harm (p & v & m & H)]].
  - apply which_arm_TimeTravel in Harm. left.
    unfold get_position_velocity_and_motion_state. rewrite H. tauto.
  - right. split.
    + destruct (Rle_dec (end_tai self) tai); [tauto |].
      destruct (Rle_dec (start_tai self) tai); [tauto |].
      exfalso. apply Harm, which_arm_TimeTravel. lra.
    + exists p, v, m. split; [assumption | apply get_unwrapped, H].
Qed.

(** ** The engine at a float query time *)

(** At a real time the float tests are the real tests. *)
Lemma which_arm_float_Fin (self : t) (r : R) :
  which_arm_float self (Float.Fin r) = which_arm self r.
Proof.
  unfold which_arm_float, which_arm, Float.geb, Float.leb, Float.ltb.
  destruct (Rle_dec (end_tai self) r), (Rge_dec r (end_tai self)),
    (Rlt_dec r (start_tai self)); try reflexivity; lra.
Qed.

Lemma unwrapped_at_float_time_Fin (self : t) (r : R) :
  unwrapped_at_float_time self (Float.Fin r)
  = match unwrapped_position_velocity_and_motion_state self r with
    | Ok (p, v, m) => Ok (Float.Fin p, v, m)
    | Raise e => Raise e
    end.
Proof.
  unfold unwrapped_at_float_time,
    unwrapped_position_velocity_and_motion_state.
  rewrite which_arm_float_Fin. destruct (which_arm self r).
  - destruct (state_in _ [PARKING; PARKED]); [reflexivity |].
    destruct (state_in _ [STOPPING; STOPPED]); [reflexivity |].
    destruct (Req_dec_T (crawl_velocity self) 0); reflexivity.
  - reflexivity.
  - unfold py_div_float, py_div.
    destruct (Req_dec_T (end_tai self - start_tai self) 0); [reflexivity |].
    cbn [Float.sub Float.neg Float.add Float.div_fin Float.mul].
    destruct (MotionState_eqb _ PARKING); [reflexivity |].
    destruct (MotionState_eqb _ STOPPING); reflexivity.
Qed.

(** The [else] of line 169 is taken by NaN and by the real times inside the
    leg, and by nothing else. *)
Lemma which_arm_float_InTransit (self : t) (tai : Float.t) :
  which_arm_float self tai = InTransit
  <-> tai = Float.NaN
      \/ exists r, tai = Float.Fin r /\ start_tai self <= r < end_tai self.
Proof.
  destruct tai as [r | | |].
  - rewrite which_arm_float_Fin, which_arm_InTransit. split.
    + intro H. right. exists r. tauto.
    + intros [H | (r' & H & Hr)]; [discriminate |].
      injection H as ->. exact Hr.
  - cbn. split; [discriminate | intros [H | (r & H & _)]; discriminate].
  - cbn. split; [discriminate | intros [H | (r & H & _)]; discriminate].
  - cbn. split; [tauto | reflexivity].
Qed.

Lemma which_arm_float_TimeTravel (self : t) (tai : Float.t) :
  which_arm_float self tai = TimeTravel
  <-> Float.ltb tai (Float.Fin (end_tai self)) = true
      /\ Float.ltb tai (Float.Fin (start_tai self)) = true.
Proof.
  destruct tai as [r | | |].
  - rewrite which_arm_float_Fin, which_arm_TimeTravel.
    unfold Float.ltb.
    destruct (Rlt_dec r (end_tai self)), (Rlt_dec r (start_tai self));
      split; intros [? ?]; solve [tauto | lra | discriminate].
  - cbn. split; [discriminate | intros [? ?]; discriminate].
  - cbn. split; [tauto | reflexivity].
  - cbn. split; [discriminate | intros [? ?]; discriminate].
Qed.

(** What the arms before the wrap do at a float time: the time-travel arm
    raises [ValueError], the in-transit arm raises [ZeroDivisionError] for
    a zero-length leg and returns otherwise, the last arm returns. *)
Lemma unwrapped_at_float_time_cases (self : t) (tai : Float.t) :
  (which_arm_float self tai = TimeTravel
   /\ unwrapped_at_float_time self tai = Raise ValueError)
  \/ (which_arm_float self tai = InTransit
      /\ end_tai self = start_tai self
      /\ unwrapped_at_float_time self tai = Raise ZeroDivisionError)
  \/ ((which_arm_float self tai = TransitDone
       \/ (which_arm_float self tai = InTransit
           /\ end_tai self <> start_tai self))
      /\ exists p v m, unwrapped_at_float_time self tai = Ok (p, v, m)).
Proof.
  unfold unwrapped_at_float_time.
  destruct (which_arm_float self tai) eqn:Harm.
  - right. right. split; [left; reflexivity |].
    destruct (state_in _ [PARKING; PARKED]); [eauto |].
    destruct (state_in _ [STOPPING; STOPPED]); [eauto |].
    destruct (Req_dec_T (crawl_velocity self) 0); eauto.
  - left. split; reflexivity.
  - unfold py_div_float.
    destruct (Req_dec_T (end_tai self - start_tai self) 0) as [Hz | Hnz].
    + right. left. repeat split. lra.
    + right. right. split; [right; split; [reflexivity | lra] |].
      destruct (MotionState_eqb _ PARKING); [eauto |].
      destruct (MotionState_eqb _ STOPPING); eauto.
Qed.

(** C9, amended: for every state (also one with [end_tai < start_tai]) and
    every query time that is not NaN, the in-transit arm, the one that
    divides by [end_tai - start_tai], is taken only at a finite time with
    [start_tai <= tai < end_tai]; there the divisor is strictly positive and
    the division returns.  So the arms before the wrap either raise the
    time-travel [ValueError] or return, and at a finite time so does the
    whole query: no [ZeroDivisionError]. *)
Theorem query_divides_only_in_transit (self : t) (tai : Float.t) :
  tai <> Float.NaN ->
  (which_arm_float self tai = InTransit
   <-> exists r, tai = Float.Fin r /\ start_tai self <= r < end_tai self)
  /\ (which_arm_float self tai = InTransit ->
      0 < end_tai self - start_tai self
      /\ exists frac_time,
           py_div_float (Float.sub tai (Float.Fin (start_tai self)))
             (end_tai self - start_tai self) = Ok frac_time)
  /\ (unwrapped_at_float_time self tai = Raise ValueError
      \/ exists p v m, unwrapped_at_float_time self tai = Ok (p, v, m))
  /\ (forall r : R, tai = Float.Fin r ->
      get_position_velocity_and_motion_state self r = Raise ValueError
      \/ exists p v m,
           get_position_velocity_and_motion_state self r = Ok (p, v, m)).
Proof.
  intro Hnan.
  assert (Harm : which_arm_float self tai = InTransit
                 <-> exists r, tai = Float.Fin r
                               /\ start_tai self <= r < end_tai self).
  { rewrite which_arm_float_InTransit. split; [| tauto].
    intros [H | H]; [contradiction | exact H]. }
  split; [exact Harm |]. split; [| split].
  - intro H. apply Harm in H as (r & -> & Hr).
    split; [lra |]. unfold py_div_float.
    destruct (Req_dec_T (end_tai self - start_tai self) 0); [lra | eauto].
  - destruct (unwrapped_at_float_time_cases self tai)
      as [[_ H] | [(H & Heq & _) | [_ H]]]; [left; exact H | | right; exact H].
    apply Harm in H as (r & _ & Hr). lra.
  - intros r _.
    destruct (get_cases self r) as [(_ & _ & H) | (_ & p & v & m & _ & H)];
      [left; exact H | right; eauto].
Qed.

Lemma query_divides_only_in_transit_witness :
  Float.Fin 1 <> Float.NaN
  /\ (which_arm_float (mk 0 1 0 2 2 0 MOVING) (Float.Fin 1) = InTransit ->
      0 < end_tai (mk 0 1 0 2 2 0 MOVING) - start_tai (mk 0 1 0 2 2 0 MOVING)
      /\ exists frac_time,
           py_div_float
             (Float.sub (Float.Fin 1)
                (Float.Fin (start_tai (mk 0 1 0 2 2 0 MOVING))))
             (end_tai (mk 0 1 0 2 2 0 MOVING)
              - start_tai (mk 0 1 0 2 2 0 MOVING)) = Ok frac_time).
Proof.
  assert (H : Float.Fin 1 <> Float.NaN) by discriminate.
  split; [exact H |].
  exact (proj1 (proj2 (query_divides_only_in_transit
                         (mk 0 1 0 2 2 0 MOVING) (Float.Fin 1) H))).
Defined.

(** C8: the wrap of line 184 sends every real into [[0, 2 pi)] and is
    invariant under adding whole turns; so every position a query returns
    lies in [[0, 2 pi)]. *)
Theorem wrap_principal_interval :
  (forall x : R, 0 <= Angle.wrap x < 2 * PI)
  /\ (forall (x : R) (k : Z), Angle.wrap x = Angle.wrap (x + 2 * PI * IZR k))
  /\ (forall (self : t) (tai : R),
        match get_position_velocity_and_motion_state self tai with
        | Ok (position, _, _) => 0 <= position < 2 * PI
        | Raise _ => True
        end).
Proof.
  split; [exact wrap_range |]. split.
  - intros x k. symmetry. apply wrap_shift.
  - intros self tai. unfold get_position_velocity_and_motion_state.
    destruct (unwrapped_position_velocity_and_motion_state self tai)
      as [[[p v] m] | e]; [apply wrap_range | trivial].
Qed.

(** ** The engine: what each command leaves behind *)

Ltac unfold_method :=
  unfold Method.bind, Method.read, Method.assign, Method.call, Method.ret,
    Method.raise.

Tactic Notation "unfold_method" "in" hyp(H) :=
  unfold Method.bind, Method.read, Method.assign, Method.call, Method.ret,
    Method.raise in H.

Lemma stop_returns (self : t) (tai p v : R) (m : MotionState) :
  get_position_velocity_and_motion_state self tai = Ok (p, v, m) ->
  stop tai self
  = (Ok tt, mk p (max_speed self) tai p (end_tai self) 0 STOPPING).
Proof.
  intro H. unfold stop. unfold_method. rewrite H. reflexivity.
Qed.

Lemma stop_raises (self : t) (tai : R) (e : exn) :
  get_position_velocity_and_motion_state self tai = Raise e ->
  stop tai self = (Raise e, self).
Proof.
  intro H. unfold stop. unfold_method. rewrite H. reflexivity.
Qed.

Lemma park_returns (self : t) (tai p v : R) (m : MotionState) :
  get_position_velocity_and_motion_state self tai = Ok (p, v, m) ->
  max_speed self <> 0 ->
  park tai self
  = (Ok (tai + Rabs (0 - p) / max_speed self),
     mk p (max_speed self) tai 0 (tai + Rabs (0 - p) / max_speed self)
        0 PARKING).
Proof.
  intros H Hspeed. unfold park. unfold_method. rewrite H. cbn.
  unfold _get_duration, _get_distance. cbn.
  rewrite py_div_nonzero by assumption. reflexivity.
Qed.

Lemma park_raises (self : t) (tai : R) (e : exn) :
  get_position_velocity_and_motion_state self tai = Raise e ->
  park tai self = (Raise e, self).
Proof.
  intro H. unfold park. unfold_method. rewrite H. reflexivity.
Qed.

Lemma set_target_raises (self : t) (tai e c : R) (m : MotionState) :
  ~ valid_target self c m ->
  set_target_position_and_velocity tai e c m self = (Raise ValueError, self).
Proof.
  intro H. unfold set_target_position_and_velocity. unfold_method.
  destruct (Rgt_dec (Rabs c) (max_speed self)) as [Hgt | Hle]; [reflexivity |].
  destruct m; cbn; try reflexivity;
    exfalso; apply H; split; (lra || tauto).
Qed.

Lemma set_target_moving (self : t) (tai e c : R) :
  Rabs c <= max_speed self -> max_speed self <> 0 ->
  set_target_position_and_velocity tai e c MOVING self
  = (Ok (Rabs (e - start_position self) / max_speed self),
     mk (start_position self) (max_speed self) tai e
        (tai + Rabs (e - start_position self) / max_speed self) c MOVING).
Proof.
  intros Hc Hspeed. unfold set_target_position_and_velocity. unfold_method.
  destruct (Rgt_dec (Rabs c) (max_speed self)) as [Hgt | _]; [lra |].
  cbn. unfold _get_duration, _get_distance. cbn.
  rewrite py_div_nonzero by assumption. reflexivity.
Qed.

Lemma set_target_crawling (self : t) (tai e c : R) :
  Rabs c <= max_speed self ->
  set_target_position_and_velocity tai e c CRAWLING self
  = (Ok 0,
     mk (start_position self) (max_speed self) tai e (tai + 0) c CRAWLING).
Proof.
  intros Hc. unfold set_target_position_and_velocity. unfold_method.
  destruct (Rgt_dec (Rabs c) (max_speed self)) as [Hgt | _]; [lra |].
  reflexivity.
Qed.

(** ** The engine: concrete scenarios *)

(** Decide the comparisons of a query on concrete numbers. *)
Ltac decide_reals :=
  repeat match goal with
  | |- context [Rge_dec ?a ?b] => destruct (Rge_dec a b); try lra
  | |- context [Rgt_dec ?a ?b] => destruct (Rgt_dec a b); try lra
  | |- context [Rlt_dec ?a ?b] => destruct (Rlt_dec a b); try lra
  | |- context [Rle_dec ?a ?b] => destruct (Rle_dec a b); try lra
  | |- context [Req_dec_T ?a ?b] => destruct (Req_dec_T a b); try lra
  end.

Ltac run_query :=
  unfold get_position_velocity_and_motion_state,
    unwrapped_position_velocity_and_motion_state, which_arm, py_div,
    _get_distance;
  cbn [start_position max_speed start_tai end_position end_tai
       crawl_velocity commanded_motion_state state_in existsb
       MotionState_eqb orb];
  decide_reals.

Lemma wrap_small (x : R) : 0 <= x <= 6 -> Angle.wrap x = x.
Proof. intro H. apply wrap_id. pose proof PI_gt_3. lra. Qed.

(** A move from rest at 0 to [target] at speed 1, issued at time 0. *)
Lemma move_from_rest (target : R) :
  0 <= target ->
  set_target_position_and_velocity 0 target 0 MOVING (resting 0 1 0)
  = (Ok target, mk 0 1 0 target target 0 MOVING).
Proof.
  intro Ht.
  rewrite set_target_moving; cbn [resting max_speed start_position];
    [| rewrite Rabs_R0; lra | lra].
  replace (Rabs (target - 0) / 1) with target
    by (rewrite Rabs_right by lra; field).
  replace (0 + target) with target by ring. reflexivity.
Qed.

(** C1: a query before [start_tai] that is answered.  The engine, at rest
    at 0 with speed 1, is sent to 1 at time 0 (the move ends at time 1) and
    stopped at time 5: [stop] moves [start_tai] to 5 and leaves [end_tai] at
    1.  The query at time 3 is before the start, yet line 136 takes it
    ([3 >= end_tai]) and it returns position 1, velocity 0, STOPPED instead
    of raising. *)
Theorem late_stop_query_before_start :
  let s1 :=
    snd (set_target_position_and_velocity 0 1 0 MOVING (resting 0 1 0)) in
  let s2 := snd (stop 5 s1) in
  fst (stop 5 s1) = Ok tt
  /\ start_tai s2 = 5 /\ end_tai s2 = 1 /\ 3 < start_tai s2
  /\ get_position_velocity_and_motion_state s2 3 = Ok (1, 0, STOPPED).
Proof.
  cbv zeta. rewrite move_from_rest by lra. cbn [snd].
  assert (H : get_position_velocity_and_motion_state (mk 0 1 0 1 1 0 MOVING) 5
              = Ok (1, 0, STOPPED)).
  { run_query. rewrite wrap_small by lra.
    replace (1 + 0 * (5 - 1)) with 1 by ring. reflexivity. }
  rewrite (stop_returns _ _ _ _ _ H). cbn [fst snd start_tai end_tai].
  repeat split; try lra.
  run_query. rewrite wrap_small by lra. reflexivity.
Qed.

(** Where the leg does not end before it starts, every query before the
    start raises. *)
Lemma query_before_start_raises (self : t) (tai : R) :
  start_tai self <= end_tai self -> tai < start_tai self ->
  get_position_velocity_and_motion_state self tai = Raise ValueError.
Proof.
  intros Hinv Htai.
  destruct (get_cases self tai) as [(_ & _ & H) | ([H | H] & _)];
    [exact H | lra | lra].
Qed.

(** C2, as stated, fails after a late stop: in the scenario above [stop 5]
    returns and leaves [end_tai = 1] below [start_tai = 5]; [end_tai] is not
    the time of the stop. *)
Lemma late_stop_end_before_start :
  let s1 :=
    snd (set_target_position_and_velocity 0 1 0 MOVING (resting 0 1 0)) in
  let s2 := snd (stop 5 s1) in
  fst (stop 5 s1) = Ok tt
  /\ ~ (end_tai s2 >= start_tai s2) /\ end_tai s2 <> 5.
Proof.
  cbv zeta. rewrite move_from_rest by lra. cbn [snd].
  assert (H : get_position_velocity_and_motion_state (mk 0 1 0 1 1 0 MOVING) 5
              = Ok (1, 0, STOPPED)).
  { run_query. rewrite wrap_small by lra.
    replace (1 + 0 * (5 - 1)) with 1 by ring. reflexivity. }
  rewrite (stop_returns _ _ _ _ _ H). cbn [fst snd start_tai end_tai].
  repeat split; lra.
Qed.

(** C3: a new target issued in the middle of a move.  The engine, at rest
    at 0 with speed 1, is sent to 2 at time 0; at time 1 it reports position
    1.  A second [set_target_position_and_velocity] at time 1 is accepted,
    but it does not assign [_start_position] (as [stop] and [park] do), so
    the query at time 1 now reports position 0. *)
Theorem retarget_mid_move_jumps_back :
  let s1 :=
    snd (set_target_position_and_velocity 0 2 0 MOVING (resting 0 1 0)) in
  let s2 := snd (set_target_position_and_velocity 1 2 0 MOVING s1) in
  get_position_velocity_and_motion_state s1 1 = Ok (1, 1, MOVING)
  /\ fst (set_target_position_and_velocity 1 2 0 MOVING s1) = Ok 2
  /\ get_position_velocity_and_motion_state s2 1 = Ok (0, 1, MOVING).
Proof.
  cbv zeta. rewrite move_from_rest by lra. cbn [snd].
  rewrite set_target_moving; cbn [max_speed start_position];
    [| rewrite Rabs_R0; lra | lra].
  replace (Rabs (2 - 0) / 1) with 2 by (rewrite Rabs_right by lra; field).
  cbn [fst snd]. split; [| split; [reflexivity |]].
  - run_query. rewrite wrap_small by lra. do 3 f_equal. field.
  - run_query. rewrite wrap_small by lra. do 3 f_equal. field.
Qed.

(** The move-then-crawl scenario of the specification: speed 1, from rest
    at 0, a move to pi with crawl velocity 1/10 issued at time 0. *)
Lemma move_then_crawl_scenario :
  let s1 :=
    snd (set_target_position_and_velocity 0 PI (1 / 10) MOVING
           (resting 0 1 0)) in
  fst (set_target_position_and_velocity 0 PI (1 / 10) MOVING (resting 0 1 0))
  = Ok PI
  /\ get_position_velocity_and_motion_state s1 (PI / 2)
     = Ok (PI / 2, 1, MOVING)
  /\ get_position_velocity_and_motion_state s1 PI = Ok (PI, 1 / 10, CRAWLING)
  /\ get_position_velocity_and_motion_state s1 (PI + 10)
     = Ok (PI + 1, 1 / 10, CRAWLING).
Proof.
  cbv zeta. pose proof PI_gt_3 as Hpi.
  rewrite set_target_moving; cbn [resting max_speed start_position];
    [| rewrite Rabs_right by lra; lra | lra].
  replace (Rabs (PI - 0) / 1) with PI by (rewrite Rabs_right by lra; field).
  replace (0 + PI) with PI by ring. cbn [fst snd].
  split; [reflexivity |]. split; [| split].
  - run_query.
    replace (0 + (PI - 0) * ((PI / 2 - 0) / (PI - 0))) with (PI / 2)
      by (field; lra).
    rewrite wrap_id by lra. reflexivity.
  - run_query. replace (PI + 1 / 10 * (PI - PI)) with PI by ring.
    rewrite wrap_id by lra. reflexivity.
  - run_query. replace (PI + 1 / 10 * (PI + 10 - PI)) with (PI + 1) by field.
    rewrite wrap_id by lra. reflexivity.
Qed.

(** The crawl scenario of the specification: from rest at 0, a crawl at
    -1/5 issued at time 0 crosses the seam and is reported just under
    2 pi. *)
Lemma crawl_across_seam_scenario :
  let s1 :=
    snd (set_target_position_and_velocity 0 0 (- (1 / 5)) CRAWLING
           (resting 0 1 0)) in
  get_position_velocity_and_motion_state s1 0 = Ok (0, - (1 / 5), CRAWLING)
  /\ get_position_velocity_and_motion_state s1 5
     = Ok (2 * PI - 1, - (1 / 5), CRAWLING).
Proof.
  cbv zeta. pose proof PI_gt_3 as Hpi.
  rewrite set_target_crawling;
    [| cbn [resting max_speed]; rewrite Rabs_left by lra; lra].
  cbn [snd resting start_position max_speed]. split.
  - run_query. replace (0 + - (1 / 5) * (0 - (0 + 0))) with 0 by ring.
    rewrite wrap_0. reflexivity.
  - run_query.
    replace (0 + - (1 / 5) * (5 - (0 + 0))) with (2 * PI - 1 + 2 * PI * IZR (-1))
      by (simpl; field).
    rewrite wrap_shift, wrap_id by lra. reflexivity.
Qed.

(** C9, as stated, fails at a NaN query time.  A crawl command has no
    transit leg, so it leaves [end_tai = start_tai]; for NaN both tests of
    lines 136 and 165 are false, the query takes the [else] of line 169 and
    the division of line 170 raises [ZeroDivisionError]. *)
Lemma nan_query_divides_by_zero :
  let s1 :=
    snd (set_target_position_and_velocity 0 0 (1 / 2) CRAWLING
           (resting 0 1 0)) in
  fst (set_target_position_and_velocity 0 0 (1 / 2) CRAWLING (resting 0 1 0))
  = Ok 0
  /\ end_tai s1 - start_tai s1 = 0
  /\ which_arm_float s1 Float.NaN = InTransit
  /\ unwrapped_at_float_time s1 Float.NaN = Raise ZeroDivisionError.
Proof.
  cbv zeta.
  rewrite set_target_crawling
    by (cbn [resting max_speed]; rewrite Rabs_right by lra; lra).
  cbn [fst snd start_tai end_tai].
  split; [reflexivity |]. split; [ring |]. split; [reflexivity |].
  unfold unwrapped_at_float_time, which_arm_float, py_div_float.
  cbn [Float.geb Float.leb Float.ltb start_tai end_tai].
  destruct (Req_dec_T (0 + 0 - 0) 0) as [_ | Hnz]; [reflexivity | lra].
Qed.

(** C6, as stated, fails for a park issued before the current leg.  The
    engine is sent from 0 to 1 at time 5 (the move ends at time 6); a park
    at time 3 is before both the start and the end of that leg: the query
    it starts with raises [ValueError] (line 165), no end time is returned
    and nothing is re-planned. *)
Lemma park_before_leg_raises :
  let s1 :=
    snd (set_target_position_and_velocity 5 1 0 MOVING (resting 0 1 0)) in
  fst (set_target_position_and_velocity 5 1 0 MOVING (resting 0 1 0)) = Ok 1
  /\ start_tai s1 = 5 /\ end_tai s1 = 6
  /\ fst (park 3 s1) = Raise ValueError
  /\ snd (park 3 s1) = s1.
Proof.
  cbv zeta.
  rewrite set_target_moving; cbn [resting max_speed start_position];
    [| rewrite Rabs_R0; lra | lra].
  replace (Rabs (1 - 0) / 1) with 1 by (rewrite Rabs_right by lra; field).
  replace (5 + 1) with 6 by ring. cbn [fst snd start_tai end_tai].
  split; [reflexivity |]. split; [reflexivity |]. split; [reflexivity |].
  assert (H : get_position_velocity_and_motion_state
                (mk 0 1 5 1 6 0 MOVING) 3 = Raise ValueError)
    by (run_query; reflexivity).
  rewrite (park_raises _ _ _ H). split; reflexivity.
Qed.

(** ** The engine: general properties of the commands *)

Lemma answered_returns (self : t) (tai : R) :
  answered self tai ->
  exists p v m,
    get_position_velocity_and_motion_state self tai = Ok (p, v, m)
    /\ 0 <= p < 2 * PI.
Proof.
  intro Hans.
  destruct (get_cases self tai) as [(H1 & H2 & _) | (_ & p & v & m & _ & H)].
  - unfold answered in Hans. lra.
  - exists (Angle.wrap p), v, m. split; [exact H | apply wrap_range].
Qed.

(** After a stop at [tai] that found position [p], every query from [tai]
    on reports [p], at rest. *)
Lemma stopped_state_query (p speed tai end_tai' q : R) :
  0 <= p < 2 * PI -> tai <= q ->
  get_position_velocity_and_motion_state
    (mk p speed tai p end_tai' 0 STOPPING) q
  = Ok (p, 0, STOPPED).
Proof.
  intros Hp Hq. run_query;
    try replace (p + (p - p) * ((q - tai) / (end_tai' - tai))) with p by ring;
    rewrite wrap_id by assumption; reflexivity.
Qed.

(** C4: a stop issued at a time [tai] not before [start_tai] returns, and
    from then on every query at [q >= tai] reports STOPPED, velocity 0 and
    the position the engine had at [tai]. *)
Theorem stop_freezes (self : t) (tai : R) :
  start_tai self <= tai ->
  exists p v m self',
    get_position_velocity_and_motion_state self tai = Ok (p, v, m)
    /\ stop tai self = (Ok tt, self')
    /\ forall q : R, tai <= q ->
         get_position_velocity_and_motion_state self' q = Ok (p, 0, STOPPED).
Proof.
  intro Htai.
  destruct (answered_returns self tai) as (p & v & m & H & Hp);
    [right; exact Htai |].
  exists p, v, m. eexists. split; [exact H |].
  split; [apply (stop_returns _ _ _ _ _ H) |].
  intros q Hq. apply stopped_state_query; assumption.
Qed.

Lemma stop_freezes_witness :
  start_tai (resting 0 1 0) <= 2
  /\ exists p v m self',
       get_position_velocity_and_motion_state (resting 0 1 0) 2 = Ok (p, v, m)
       /\ stop 2 (resting 0 1 0) = (Ok tt, self')
       /\ forall q : R, 2 <= q ->
            get_position_velocity_and_motion_state self' q
            = Ok (p, 0, STOPPED).
Proof.
  assert (H : start_tai (resting 0 1 0) <= 2) by (cbn; lra).
  split; [exact H | exact (stop_freezes (resting 0 1 0) 2 H)].
Defined.

(** [stop] and [park] are continuous at the time of issue: both assign the
    evaluated position to [_start_position]. *)
Lemma stop_continuous (self : t) (tai p v : R) (m : MotionState) :
  get_position_velocity_and_motion_state self tai = Ok (p, v, m) ->
  get_position_velocity_and_motion_state (snd (stop tai self)) tai
  = Ok (p, 0, STOPPED).
Proof.
  intro H. rewrite (stop_returns _ _ _ _ _ H). cbn [snd].
  apply stopped_state_query; [| lra].
  destruct (get_cases self tai) as [(_ & _ & H') | (_ & p' & v' & m' & _ & H')];
    rewrite H' in H; [discriminate |].
  injection H as <- _ _. apply wrap_range.
Qed.

(** The state a park at [tai] from position [p] leaves, queried. *)
Lemma parking_state_query (p speed tai q : R) :
  0 <= p < 2 * PI -> 0 < speed ->
  (q = tai ->
   exists v m,
     get_position_velocity_and_motion_state
       (mk p speed tai 0 (tai + Rabs (0 - p) / speed) 0 PARKING) q
     = Ok (p, v, m))
  /\ (tai + Rabs (0 - p) / speed <= q ->
      get_position_velocity_and_motion_state
        (mk p speed tai 0 (tai + Rabs (0 - p) / speed) 0 PARKING) q
      = Ok (0, 0, PARKED)).
Proof.
  intros Hp Hspeed.
  assert (Hd : Rabs (0 - p) / speed = p / speed).
  { rewrite Rabs_left1 by lra. f_equal. ring. }
  rewrite Hd.
  assert (Hq : 0 <= p / speed).
  { apply Rmult_le_pos; [lra |]. apply Rlt_le, Rinv_0_lt_compat, Hspeed. }
  split.
  - intros ->. unfold get_position_velocity_and_motion_state,
      unwrapped_position_velocity_and_motion_state, which_arm, py_div,
      _get_distance.
    cbn [start_position max_speed start_tai end_position end_tai
         crawl_velocity commanded_motion_state state_in existsb
         MotionState_eqb orb].
    destruct (Rge_dec tai (tai + p / speed)) as [Hge | Hlt].
    + assert (Hp0 : p = 0).
      { assert (Hz : p / speed = 0) by lra.
        apply (f_equal (fun x => x * speed)) in Hz.
        replace (p / speed * speed) with p in Hz by (field; lra). lra. }
      subst p. rewrite wrap_0. eauto.
    + destruct (Rlt_dec tai tai) as [Habs | _]; [lra |].
      destruct (Req_dec_T (tai + p / speed - tai) 0) as [Hz | _]; [lra |].
      replace (tai - tai) with 0 by ring.
      unfold Rdiv at 1. rewrite Rmult_0_l, Rmult_0_r, Rplus_0_r.
      rewrite wrap_id by assumption. eauto.
  - intro Hle. unfold get_position_velocity_and_motion_state,
      unwrapped_position_velocity_and_motion_state, which_arm.
    cbn [start_position max_speed start_tai end_position end_tai
         crawl_velocity commanded_motion_state state_in existsb
         MotionState_eqb orb].
    destruct (Rge_dec q (tai + p / speed)) as [_ | Hlt]; [| lra].
    rewrite wrap_0. reflexivity.
Qed.

Lemma park_continuous (self : t) (tai p v : R) (m : MotionState) :
  0 < max_speed self ->
  get_position_velocity_and_motion_state self tai = Ok (p, v, m) ->
  exists v' m',
    get_position_velocity_and_motion_state (snd (park tai self)) tai
    = Ok (p, v', m').
Proof.
  intros Hspeed H.
  rewrite (park_returns _ _ _ _ _ H) by lra. cbn [snd].
  apply parking_state_query; [| assumption | reflexivity].
  destruct (get_cases self tai) as [(_ & _ & H') | (_ & p' & v' & m' & _ & H')];
    rewrite H' in H; [discriminate |].
  injection H as <- _ _. apply wrap_range.
Qed.

(** C6, amended: a park issued at a time [tai] the engine answers (not
    before both the end and the start of the current leg) re-plans from the
    position [p] evaluated at [tai]: the new leg starts at [p] and [tai],
    ends at position 0 and at time [tai + |0 - p| / max_speed], has no crawl
    and is commanded PARKING; [park] returns that end time, and every query
    at or after it reports position 0, velocity 0, PARKED. *)
Theorem park_replans (self : t) (tai : R) :
  0 < max_speed self -> answered self tai ->
  exists p v m self',
    get_position_velocity_and_motion_state self tai = Ok (p, v, m)
    /\ park tai self = (Ok (end_tai self'), self')
    /\ start_position self' = p /\ start_tai self' = tai
    /\ end_position self' = 0 /\ crawl_velocity self' = 0
    /\ commanded_motion_state self' = PARKING
    /\ end_tai self' = tai + Rabs (0 - p) / max_speed self
    /\ forall q : R, end_tai self' <= q ->
         get_position_velocity_and_motion_state self' q = Ok (0, 0, PARKED).
Proof.
  intros Hspeed Hans.
  destruct (answered_returns self tai Hans) as (p & v & m & H & Hp).
  exists p, v, m.
  exists (mk p (max_speed self) tai 0
             (tai + Rabs (0 - p) / max_speed self) 0 PARKING).
  split; [exact H |].
  split; [rewrite (park_returns _ _ _ _ _ H) by lra; reflexivity |].
  cbn [start_position start_tai end_position end_tai crawl_velocity
       commanded_motion_state].
  repeat (split; [reflexivity |]).
  intros q Hq. apply parking_state_query; assumption.
Qed.

Lemma park_replans_witness :
  let self := mk 0 (1 / 2) 3 2 7 0 MOVING in
  0 < max_speed self /\ answered self 5
  /\ exists p v m self',
       get_position_velocity_and_motion_state self 5 = Ok (p, v, m)
       /\ park 5 self = (Ok (end_tai self'), self')
       /\ start_position self' = p /\ start_tai self' = 5
       /\ end_position self' = 0 /\ crawl_velocity self' = 0
       /\ commanded_motion_state self' = PARKING
       /\ end_tai self' = 5 + Rabs (0 - p) / max_speed self
       /\ forall q : R, end_tai self' <= q ->
            get_position_velocity_and_motion_state self' q
            = Ok (0, 0, PARKED).
Proof.
  cbv zeta.
  assert (H1 : 0 < max_speed (mk 0 (1 / 2) 3 2 7 0 MOVING)) by (cbn; lra).
  assert (H2 : answered (mk 0 (1 / 2) 3 2 7 0 MOVING) 5)
    by (right; cbn; lra).
  split; [exact H1 |]. split; [exact H2 |].
  exact (park_replans (mk 0 (1 / 2) 3 2 7 0 MOVING) 5 H1 H2).
Defined.

(** The duration of a leg is not negative when the speed is positive. *)
Lemma duration_nonneg (d speed : R) : 0 < speed -> 0 <= Rabs d / speed.
Proof.
  intro Hs. apply Rmult_le_pos; [apply Rabs_pos |].
  apply Rlt_le, Rinv_0_lt_compat, Hs.
Qed.

(** C2, amended: with a positive [max_speed], a valid
    [set_target_position_and_velocity] and an answered [park] both return
    and leave [start_tai] at the time of issue and [end_tai] at [start_tai]
    plus a duration that is not negative, so [end_tai >= start_tai]; an
    answered [stop] returns, moves [start_tai] to the time of issue and
    leaves [end_tai] as it was, so after it [end_tai >= start_tai] holds
    exactly when the stop was issued no later than the previous [end_tai]. *)
Theorem commands_end_tai (self : t) (tai : R) :
  0 < max_speed self ->
  (forall (e c : R) (m : MotionState), valid_target self c m ->
     exists d self',
       set_target_position_and_velocity tai e c m self = (Ok d, self')
       /\ 0 <= d /\ start_tai self' = tai /\ end_tai self' = tai + d
       /\ end_tai self' >= start_tai self')
  /\ (answered self tai ->
      exists self',
        park tai self = (Ok (end_tai self'), self')
        /\ start_tai self' = tai /\ end_tai self' >= start_tai self')
  /\ (answered self tai ->
      exists self',
        stop tai self = (Ok tt, self')
        /\ start_tai self' = tai /\ end_tai self' = end_tai self
        /\ (end_tai self' >= start_tai self' <-> tai <= end_tai self)).
Proof.
  intro Hspeed. split; [| split].
  - intros e c m [Hc [-> | ->]].
    + rewrite set_target_moving by lra.
      pose proof (duration_nonneg (e - start_position self) _ Hspeed).
      do 2 eexists. split; [reflexivity |].
      cbn [start_tai end_tai]. repeat split; lra.
    + rewrite set_target_crawling by lra.
      do 2 eexists. split; [reflexivity |].
      cbn [start_tai end_tai]. repeat split; lra.
  - intro Hans.
    destruct (answered_returns self tai Hans) as (p & v & m & H & _).
    rewrite (park_returns _ _ _ _ _ H) by lra.
    exists (mk p (max_speed self) tai 0
               (tai + Rabs (0 - p) / max_speed self) 0 PARKING).
    split; [reflexivity |].
    cbn [start_tai end_tai]. split; [reflexivity |].
    pose proof (duration_nonneg (0 - p) _ Hspeed). lra.
  - intro Hans.
    destruct (answered_returns self tai Hans) as (p & v & m & H & _).
    rewrite (stop_returns _ _ _ _ _ H).
    eexists. split; [reflexivity |].
    cbn [start_tai end_tai]. repeat split; lra.
Qed.

Lemma commands_end_tai_witness :
  0 < max_speed (resting 0 1 0)
  /\ (answered (resting 0 1 0) 5 ->
      exists self',
        stop 5 (resting 0 1 0) = (Ok tt, self')
        /\ start_tai self' = 5 /\ end_tai self' = end_tai (resting 0 1 0)
        /\ (end_tai self' >= start_tai self'
            <-> 5 <= end_tai (resting 0 1 0))).
Proof.
  assert (H : 0 < max_speed (resting 0 1 0)) by (cbn; lra).
  split; [exact H |].
  exact (proj2 (proj2 (commands_end_tai (resting 0 1 0) 5 H))).
Defined.

(** [crawlAz] has no check: it returns for every velocity. *)
Lemma crawlAz_returns (self : AmcsStatus.t) (velocity : Float.t) (tai : R) :
  fst (AmcsStatus.crawlAz velocity tai self) = Ok tt
  /\ AmcsStatus.motion_velocity
       (snd (AmcsStatus.crawlAz velocity tai self)) = velocity
  /\ AmcsStatus.status
       (snd (AmcsStatus.crawlAz velocity tai self)) = CRAWLING.
Proof.
  unfold AmcsStatus.crawlAz. unfold_method.
  cbn [AmcsStatus.motion_velocity AmcsStatus.set_status
       AmcsStatus.set_motion_velocity].
  destruct (Float.geb velocity (Float.Fin 0)); cbn; auto.
Qed.

(** C5, the engine: a target whose crawl velocity exceeds [max_speed] in
    magnitude, or whose motion state is neither MOVING nor CRAWLING, raises
    [ValueError] before anything is assigned: the engine is left as it was
    and every query is answered as before.  The status mock is different:
    [crawlAz] does not check the velocity; for every velocity it returns and
    overwrites the motion velocity and the status. *)
Theorem invalid_target_rejected :
  (forall (self : t) (tai e c : R) (m : MotionState),
     Rabs c > max_speed self \/ (m <> MOVING /\ m <> CRAWLING) ->
     set_target_position_and_velocity tai e c m self = (Raise ValueError, self)
     /\ forall q : R,
          get_position_velocity_and_motion_state
            (snd (set_target_position_and_velocity tai e c m self)) q
          = get_position_velocity_and_motion_state self q)
  /\ (forall (self : AmcsStatus.t) (velocity : Float.t) (tai : R),
        fst (AmcsStatus.crawlAz velocity tai self) = Ok tt
        /\ AmcsStatus.motion_velocity
             (snd (AmcsStatus.crawlAz velocity tai self)) = velocity
        /\ AmcsStatus.status
             (snd (AmcsStatus.crawlAz velocity tai self)) = CRAWLING).
Proof.
  split.
  - intros self tai e c m Hbad.
    assert (H : set_target_position_and_velocity tai e c m self
                = (Raise ValueError, self)).
    { apply set_target_raises. intros [Hc Hm].
      destruct Hbad as [Hgt | [Hm1 Hm2]]; [lra | tauto]. }
    split; [exact H |]. intro q. rewrite H. reflexivity.
  - exact crawlAz_returns.
Qed.

Lemma invalid_target_rejected_witness :
  (Rabs 2 > max_speed (resting 0 1 0) \/ (MOVING <> MOVING /\ MOVING <> CRAWLING))
  /\ set_target_position_and_velocity 0 1 2 MOVING (resting 0 1 0)
     = (Raise ValueError, resting 0 1 0).
Proof.
  assert (H : Rabs 2 > max_speed (resting 0 1 0)
              \/ (MOVING <> MOVING /\ MOVING <> CRAWLING)).
  { left. cbn. rewrite Rabs_right by lra. lra. }
  split; [exact H |].
  exact (proj1 (proj1 invalid_target_rejected (resting 0 1 0) 0 1 2 MOVING H)).
Defined.

(** C5, as stated for the status mock, fails: on the freshly built mock
    with a velocity limit of 4, [crawlAz] with velocity 10 does not raise
    and changes the state. *)
Lemma crawlAz_accepts_any_velocity :
  let self := AmcsStatus.init 3 1 4 0 in
  Float.gtb (Float.Fin (Rabs 10)) (AmcsStatus.vmax self) = true
  /\ fst (AmcsStatus.crawlAz (Float.Fin 10) 1 self) = Ok tt
  /\ snd (AmcsStatus.crawlAz (Float.Fin 10) 1 self) <> self.
Proof.
  cbv zeta. split; [| split].
  - cbn. rewrite Rabs_right by lra.
    destruct (Rlt_dec 4 10); [reflexivity | lra].
  - apply crawlAz_returns.
  - intro Heq. apply (f_equal AmcsStatus.status) in Heq.
    rewrite (proj2 (proj2 (crawlAz_returns _ _ _))) in Heq.
    discriminate Heq.
Qed.

(** After the transit leg of a MOVING or CRAWLING command the unwrapped
    position is linear in the time since [end_tai]. *)
Lemma crawl_position (self : t) (tai : R) :
  commanded_motion_state self = MOVING
  \/ commanded_motion_state self = CRAWLING ->
  crawl_velocity self <> 0 -> end_tai self <= tai ->
  unwrapped_position_velocity_and_motion_state self tai
  = Ok ((if MotionState_eqb (commanded_motion_state self) CRAWLING
         then start_position self else end_position self)
        + crawl_velocity self * (tai - end_tai self),
        crawl_velocity self, CRAWLING).
Proof.
  intros Hm Hc Htai. unfold unwrapped_position_velocity_and_motion_state.
  rewrite (proj2 (which_arm_TransitDone self tai) Htai).
  destruct (Req_dec_T (crawl_velocity self) 0) as [Hz | _]; [contradiction |].
  destruct Hm as [-> | ->]; reflexivity.
Qed.

(** Every command that returns leaves a nonzero crawl velocity only
    together with a MOVING or CRAWLING commanded state. *)
Lemma crawl_only_after_target (self self' : t) :
  (exists tai e c m d,
     set_target_position_and_velocity tai e c m self = (Ok d, self'))
  \/ (exists tai, stop tai self = (Ok tt, self'))
  \/ (exists tai r, park tai self = (Ok r, self')) ->
  crawl_velocity self' <> 0 ->
  commanded_motion_state self' = MOVING
  \/ commanded_motion_state self' = CRAWLING.
Proof.
  intros [(tai & e & c & m & d & H) | [(tai & H) | (tai & r & H)]] Hc.
  - unfold set_target_position_and_velocity in H. unfold_method in H.
    destruct (Rgt_dec (Rabs c) (max_speed self)); [discriminate |].
    destruct m; cbn in H; try discriminate.
    + destruct (py_div _ _); [| discriminate].
      injection H as _ Hs. subst self'. left. reflexivity.
    + injection H as _ Hs. subst self'. right. reflexivity.
  - destruct (get_position_velocity_and_motion_state self tai)
      as [[[p v] m] | e] eqn:Hq.
    + rewrite (stop_returns _ _ _ _ _ Hq) in H. injection H as Hs. subst self'.
      cbn in Hc. contradiction.
    + rewrite (stop_raises _ _ _ Hq) in H. discriminate.
  - unfold park in H. unfold_method in H.
    destruct (get_position_velocity_and_motion_state self tai)
      as [[[p v] m] | e]; [| discriminate].
    cbn in H. destruct (py_div _ _); [| discriminate].
    injection H as _ Hs. subst self'. cbn in Hc. contradiction.
Qed.

(** C7: during a nonzero crawl (crawl velocity not zero, commanded state
    MOVING or CRAWLING, the only commanded states a command leaves next to
    a nonzero crawl velocity), two queries at [tai1 < tai2], both at or
    after [end_tai], report CRAWLING, and their positions before the wrap
    differ by exactly [crawl_velocity * (tai2 - tai1)]. *)
Theorem crawl_is_linear (self : t) (tai1 tai2 : R) :
  crawl_velocity self <> 0 ->
  commanded_motion_state self = MOVING
  \/ commanded_motion_state self = CRAWLING ->
  end_tai self <= tai1 -> tai1 < tai2 ->
  exists p1 p2 : R,
    unwrapped_position_velocity_and_motion_state self tai1
    = Ok (p1, crawl_velocity self, CRAWLING)
    /\ unwrapped_position_velocity_and_motion_state self tai2
       = Ok (p2, crawl_velocity self, CRAWLING)
    /\ p2 - p1 = crawl_velocity self * (tai2 - tai1).
Proof.
  intros Hc Hm H1 H12.
  do 2 eexists.
  split; [apply crawl_position; assumption |].
  split; [apply crawl_position; [assumption | assumption | lra] |].
  ring.
Qed.

Lemma crawl_is_linear_witness :
  let self := mk 0 1 0 1 1 (1 / 10) MOVING in
  crawl_velocity self <> 0
  /\ (commanded_motion_state self = MOVING
      \/ commanded_motion_state self = CRAWLING)
  /\ end_tai self <= 1 /\ 1 < 11
  /\ exists p1 p2 : R,
       unwrapped_position_velocity_and_motion_state self 1
       = Ok (p1, crawl_velocity self, CRAWLING)
       /\ unwrapped_position_velocity_and_motion_state self 11
          = Ok (p2, crawl_velocity self, CRAWLING)
       /\ p2 - p1 = crawl_velocity self * (11 - 1).
Proof.
  cbv zeta.
  assert (H1 : crawl_velocity (mk 0 1 0 1 1 (1 / 10) MOVING) <> 0)
    by (cbn; lra).
  assert (H2 : commanded_motion_state (mk 0 1 0 1 1 (1 / 10) MOVING) = MOVING
               \/ commanded_motion_state (mk 0 1 0 1 1 (1 / 10) MOVING)
                  = CRAWLING) by (left; reflexivity).
  assert (H3 : end_tai (mk 0 1 0 1 1 (1 / 10) MOVING) <= 1) by (cbn; lra).
  assert (H4 : 1 < 11) by lra.
  repeat (split; [assumption |]).
  exact (crawl_is_linear _ 1 11 H1 H2 H3 H4).
Defined.

(** ** The status mock: the invariant of the reachable states *)

Ltac destruct_status self :=
  destruct self as [jmax amax vmax mv cv st err fans seal orig actual
                    commanded va vc dta dtc dca dt ehr ehc rr rc ctt llc].

(** Run a method of the mock: unfold the methods, the assignments and the
    float operations, innermost first. *)
Ltac run_status :=
  cbv beta iota zeta delta
    [AmcsStatus.moveAz AmcsStatus.crawlAz AmcsStatus.stopAz AmcsStatus.park
     AmcsStatus.inflate AmcsStatus.fans AmcsStatus.determine_status
     AmcsStatus.at_commanded_position AmcsStatus.beyond_commanded
     AmcsStatus.boundary_fires AmcsStatus.snapshot AmcsStatus.run
     AmcsStatus.set_motion_velocity AmcsStatus.set_crawl_velocity
     AmcsStatus.set_status AmcsStatus.set_fans_enabled
     AmcsStatus.set_seal_inflated AmcsStatus.set_position_orig
     AmcsStatus.set_position_actual AmcsStatus.set_position_commanded
     AmcsStatus.set_command_time_tai AmcsStatus.set_llc_status
     AmcsStatus.jmax AmcsStatus.amax AmcsStatus.vmax
     AmcsStatus.motion_velocity AmcsStatus.crawl_velocity AmcsStatus.status
     AmcsStatus.error AmcsStatus.fans_enabled AmcsStatus.seal_inflated
     AmcsStatus.position_orig AmcsStatus.position_actual
     AmcsStatus.position_commanded AmcsStatus.velocity_actual
     AmcsStatus.velocity_commanded AmcsStatus.drive_torque_actual
     AmcsStatus.drive_torque_commanded AmcsStatus.drive_current_actual
     AmcsStatus.drive_temperature AmcsStatus.encoder_head_raw
     AmcsStatus.encoder_head_calibrated AmcsStatus.resolver_raw
     AmcsStatus.resolver_calibrated AmcsStatus.command_time_tai
     AmcsStatus.llc_status
     Method.bind Method.read Method.assign Method.call Method.ret
     Method.raise
     Float.neg Float.add Float.sub Float.mul Float.inf_times Float.ltb
     Float.leb Float.gtb Float.geb Float.is_finite
     MotionState_eqb negb andb orb fst snd].

Tactic Notation "run_status" "in" hyp(H) :=
  cbv beta iota zeta delta
    [AmcsStatus.moveAz AmcsStatus.crawlAz AmcsStatus.stopAz AmcsStatus.park
     AmcsStatus.inflate AmcsStatus.fans AmcsStatus.determine_status
     AmcsStatus.at_commanded_position AmcsStatus.beyond_commanded
     AmcsStatus.boundary_fires AmcsStatus.snapshot AmcsStatus.run
     AmcsStatus.set_motion_velocity AmcsStatus.set_crawl_velocity
     AmcsStatus.set_status AmcsStatus.set_fans_enabled
     AmcsStatus.set_seal_inflated AmcsStatus.set_position_orig
     AmcsStatus.set_position_actual AmcsStatus.set_position_commanded
     AmcsStatus.set_command_time_tai AmcsStatus.set_llc_status
     AmcsStatus.jmax AmcsStatus.amax AmcsStatus.vmax
     AmcsStatus.motion_velocity AmcsStatus.crawl_velocity AmcsStatus.status
     AmcsStatus.error AmcsStatus.fans_enabled AmcsStatus.seal_inflated
     AmcsStatus.position_orig AmcsStatus.position_actual
     AmcsStatus.position_commanded AmcsStatus.velocity_actual
     AmcsStatus.velocity_commanded AmcsStatus.drive_torque_actual
     AmcsStatus.drive_torque_commanded AmcsStatus.drive_current_actual
     AmcsStatus.drive_temperature AmcsStatus.encoder_head_raw
     AmcsStatus.encoder_head_calibrated AmcsStatus.resolver_raw
     AmcsStatus.resolver_calibrated AmcsStatus.command_time_tai
     AmcsStatus.llc_status
     Method.bind Method.read Method.assign Method.call Method.ret
     Method.raise
     Float.neg Float.add Float.sub Float.mul Float.inf_times Float.ltb
     Float.leb Float.gtb Float.geb Float.is_finite
     MotionState_eqb negb andb orb fst snd] in H.





Ltac decide_all :=
  repeat match goal with
  | |- context [Rlt_dec ?a ?b] => destruct (Rlt_dec a b)
  | |- context [Rle_dec ?a ?b] => destruct (Rle_dec a b)
  | H : context [Rlt_dec ?a ?b] |- _ => destruct (Rlt_dec a b)
  | H : context [Rle_dec ?a ?b] |- _ => destruct (Rle_dec a b)
  end.












(** * Further properties of the engine *)

(** X1: the errors of a query, at every float time.  The arms before the
    wrap (lines 136-182) raise [ValueError] exactly when the time is below
    both [end_tai] and [start_tai]; they raise [ZeroDivisionError] exactly
    when the time is NaN and the leg has zero length
    ([end_tai = start_tai]); in every other case they return.  At a time
    that is a real number the whole query raises [ValueError] exactly when
    the time is below both, and returns a result otherwise. *)
Theorem query_raises_iff (self : t) (tai : Float.t) :
  (unwrapped_at_float_time self tai = Raise ValueError
   <-> Float.ltb tai (Float.Fin (end_tai self)) = true
       /\ Float.ltb tai (Float.Fin (start_tai self)) = true)
  /\ (unwrapped_at_float_time self tai = Raise ZeroDivisionError
      <-> tai = Float.NaN /\ end_tai self = start_tai self)
  /\ (unwrapped_at_float_time self tai = Raise ValueError
      \/ unwrapped_at_float_time self tai = Raise ZeroDivisionError
      \/ exists p v m, unwrapped_at_float_time self tai = Ok (p, v, m))
  /\ (forall r : R,
        (get_position_velocity_and_motion_state self r = Raise ValueError
         <-> r < end_tai self /\ r < start_tai self)
        /\ (get_position_velocity_and_motion_state self r = Raise ValueError
            \/ exists p v m,
                 get_position_velocity_and_motion_state self r
                 = Ok (p, v, m))).
Proof.
  split; [| split; [| split]].
  - rewrite <- which_arm_float_TimeTravel.
    destruct (unwrapped_at_float_time_cases self tai)
      as [[Ha H] | [(Ha & _ & H) | [[Ha | [Ha _]] (p & v & m & H)]]];
      rewrite H, Ha; split; solve [tauto | discriminate].
  - destruct (unwrapped_at_float_time_cases self tai)
      as [[Ha H] | [(Ha & Heq & H) | [Ha (p & v & m & H)]]]; rewrite H.
    + split; [discriminate |]. intros [-> _]. discriminate Ha.
    + split; [| reflexivity]. intros _. split; [| exact Heq].
      apply which_arm_float_InTransit in Ha as [Hn | (r & _ & Hr)];
        [exact Hn | lra].
    + split; [discriminate |]. intros [-> Heq].
      destruct Ha as [Ha | [_ Hne]]; [discriminate Ha | contradiction].
  - destruct (unwrapped_at_float_time_cases self tai)
      as [[_ H] | [(_ & _ & H) | [_ H]]]; tauto.
  - intro r.
    destruct (get_cases self r)
      as [(H1 & H2 & H) | ([Hans | Hans] & p & v & m & _ & H)];
      rewrite H;
      (split; [| solve [left; reflexivity | right; eauto]]);
      split; try tauto; try discriminate; intros [? ?]; lra.
Qed.

(** X2: [stop] and [park] start with a query at the time of issue (lines
    197 and 216); issued before both the end and the start of the current
    leg they raise [ValueError] and leave every field of the engine as it
    was. *)
Theorem commands_before_leg_rejected (self : t) (tai : R) :
  tai < end_tai self -> tai < start_tai self ->
  stop tai self = (Raise ValueError, self)
  /\ park tai self = (Raise ValueError, self).
Proof.
  intros H1 H2.
  assert (H : get_position_velocity_and_motion_state self tai
              = Raise ValueError).
  { destruct (get_cases self tai) as [(_ & _ & H) | ([Ha | Ha] & _)];
      [exact H | lra | lra]. }
  split; [apply stop_raises, H | apply park_raises, H].
Qed.

Lemma commands_before_leg_rejected_witness :
  3 < end_tai (resting 0 1 5) /\ 3 < start_tai (resting 0 1 5)
  /\ stop 3 (resting 0 1 5) = (Raise ValueError, resting 0 1 5)
  /\ park 3 (resting 0 1 5) = (Raise ValueError, resting 0 1 5).
Proof.
  assert (H1 : 3 < end_tai (resting 0 1 5)) by (cbn; lra).
  assert (H2 : 3 < start_tai (resting 0 1 5)) by (cbn; lra).
  split; [exact H1 |]. split; [exact H2 |].
  exact (commands_before_leg_rejected (resting 0 1 5) 3 H1 H2).
Defined.

(** The velocity of a transit leg: [max_speed] towards the end position
    (lines 173-175). *)
Lemma transit_position (d speed dt : R) :
  0 < speed -> d <> 0 ->
  d * (dt / (Rabs d / speed))
  = (if Rlt_dec d 0 then - speed else speed) * dt.
Proof.
  intros Hs Hd. destruct (Rlt_dec d 0) as [Hneg | Hpos].
  - rewrite Rabs_left by assumption. field. lra.
  - rewrite Rabs_right by lra. field. lra.
Qed.

Lemma duration_zero (d speed : R) :
  0 < speed -> Rabs d / speed <= 0 -> d = 0.
Proof.
  intros Hs Hz.
  destruct (Req_dec_T d 0) as [Hd | Hd]; [exact Hd | exfalso].
  assert (0 < Rabs d) by (apply Rabs_pos_lt, Hd).
  assert (0 < Rabs d / speed)
    by (apply Rmult_lt_0_compat; [assumption | apply Rinv_0_lt_compat, Hs]).
  lra.
Qed.

(** X3: during the transit leg of an accepted move the engine travels at
    [max_speed] towards the target: at [q] the position before the wrap is
    the start position plus the reported velocity times the time since the
    command, and the reported velocity is [max_speed] with the sign of
    [end_position - start_position]. *)
Theorem move_transit_linear (self : t) (tai e c q : R) :
  0 < max_speed self -> Rabs c <= max_speed self ->
  tai <= q ->
  q < end_tai (snd (set_target_position_and_velocity tai e c MOVING self)) ->
  unwrapped_position_velocity_and_motion_state
    (snd (set_target_position_and_velocity tai e c MOVING self)) q
  = Ok (start_position self
        + (if Rlt_dec (e - start_position self) 0
           then - max_speed self else max_speed self) * (q - tai),
        if Rlt_dec (e - start_position self) 0
        then - max_speed self else max_speed self,
        MOVING).
Proof.
  intros Hs Hc Hq. rewrite set_target_moving by lra.
  cbn [snd end_tai]. intro Hend.
  assert (Hd : e - start_position self <> 0).
  { intro Hz. rewrite Hz, Rabs_R0 in Hend. unfold Rdiv in Hend.
    rewrite Rmult_0_l in Hend. lra. }
  unfold unwrapped_position_velocity_and_motion_state, which_arm, py_div,
    _get_distance.
  cbn [start_position max_speed start_tai end_position end_tai
       crawl_velocity commanded_motion_state MotionState_eqb].
  destruct (Rge_dec q _) as [Hge | _]; [lra |].
  destruct (Rlt_dec q tai) as [Hlt | _]; [lra |].
  destruct (Req_dec_T _ 0) as [Hz | _]; [lra |].
  replace (tai + Rabs (e - start_position self) / max_speed self - tai)
    with (Rabs (e - start_position self) / max_speed self) by ring.
  rewrite transit_position by assumption. reflexivity.
Qed.

Lemma move_transit_linear_witness :
  0 < max_speed (resting 0 1 0) /\ Rabs 0 <= max_speed (resting 0 1 0)
  /\ 0 <= 1
  /\ 1 < end_tai (snd (set_target_position_and_velocity 0 2 0 MOVING
                         (resting 0 1 0)))
  /\ unwrapped_position_velocity_and_motion_state
       (snd (set_target_position_and_velocity 0 2 0 MOVING (resting 0 1 0))) 1
     = Ok (start_position (resting 0 1 0)
           + (if Rlt_dec (2 - start_position (resting 0 1 0)) 0
              then - max_speed (resting 0 1 0)
              else max_speed (resting 0 1 0)) * (1 - 0),
           if Rlt_dec (2 - start_position (resting 0 1 0)) 0
           then - max_speed (resting 0 1 0) else max_speed (resting 0 1 0),
           MOVING).
Proof.
  assert (H1 : 0 < max_speed (resting 0 1 0)) by (cbn; lra).
  assert (H2 : Rabs 0 <= max_speed (resting 0 1 0))
    by (cbn; rewrite Rabs_R0; lra).
  assert (H3 : 0 <= 1) by lra.
  assert (H4 : 1 < end_tai (snd (set_target_position_and_velocity 0 2 0
                                   MOVING (resting 0 1 0))))
    by (rewrite move_from_rest by lra; cbn; lra).
  repeat (split; [assumption |]).
  exact (move_transit_linear (resting 0 1 0) 0 2 0 1 H1 H2 H3 H4).
Defined.

(** X4: once the transit leg of an accepted move is over the engine is at
    the target and goes on at the crawl velocity: at [q >= end_tai] the
    position before the wrap is [end_position + crawl_velocity * (q -
    end_tai)], reported as CRAWLING with that velocity, or as STOPPED with
    velocity 0 when the crawl velocity is zero. *)
Theorem move_arrives_then_crawls (self : t) (tai e c q : R) :
  0 < max_speed self -> Rabs c <= max_speed self ->
  end_tai (snd (set_target_position_and_velocity tai e c MOVING self)) <= q ->
  unwrapped_position_velocity_and_motion_state
    (snd (set_target_position_and_velocity tai e c MOVING self)) q
  = Ok (e + c * (q - end_tai (snd (set_target_position_and_velocity
                                     tai e c MOVING self))),
        c, if Req_dec_T c 0 then STOPPED else CRAWLING).
Proof.
  intros Hs Hc. rewrite set_target_moving by lra.
  cbn [snd end_tai]. intro Hend.
  unfold unwrapped_position_velocity_and_motion_state, which_arm.
  cbn [start_position max_speed start_tai end_position end_tai
       crawl_velocity commanded_motion_state MotionState_eqb state_in
       existsb orb].
  destruct (Rge_dec q _) as [_ | Hlt]; [| lra].
  destruct (Req_dec_T c 0) as [-> | _]; reflexivity.
Qed.

Lemma move_arrives_then_crawls_witness :
  0 < max_speed (resting 0 1 0) /\ Rabs 0 <= max_speed (resting 0 1 0)
  /\ end_tai (snd (set_target_position_and_velocity 0 2 0 MOVING
                     (resting 0 1 0))) <= 2
  /\ unwrapped_position_velocity_and_motion_state
       (snd (set_target_position_and_velocity 0 2 0 MOVING (resting 0 1 0))) 2
     = Ok (2 + 0 * (2 - end_tai (snd (set_target_position_and_velocity
                                        0 2 0 MOVING (resting 0 1 0)))),
           0, if Req_dec_T 0 0 then STOPPED else CRAWLING).
Proof.
  assert (H1 : 0 < max_speed (resting 0 1 0)) by (cbn; lra).
  assert (H2 : Rabs 0 <= max_speed (resting 0 1 0))
    by (cbn; rewrite Rabs_R0; lra).
  assert (H3 : end_tai (snd (set_target_position_and_velocity 0 2 0 MOVING
                               (resting 0 1 0))) <= 2)
    by (rewrite move_from_rest by lra; cbn; lra).
  repeat (split; [assumption |]).
  exact (move_arrives_then_crawls (resting 0 1 0) 0 2 0 2 H1 H2 H3).
Defined.

(** X5: an accepted crawl command has no transit leg and ignores the end
    position it is given: from the time of issue on, the reported position
    is the wrap of [start_position + crawl_velocity * (q - tai)], whatever
    [end_position] was passed. *)
Theorem crawl_from_start_position (self : t) (tai e c q : R) :
  Rabs c <= max_speed self -> c <> 0 -> tai <= q ->
  get_position_velocity_and_motion_state
    (snd (set_target_position_and_velocity tai e c CRAWLING self)) q
  = Ok (Angle.wrap (start_position self + c * (q - tai)), c, CRAWLING).
Proof.
  intros Hc Hnz Hq. rewrite set_target_crawling by assumption. cbn [snd].
  apply get_unwrapped.
  rewrite crawl_position;
    cbn [start_position end_tai crawl_velocity commanded_motion_state
         MotionState_eqb];
    [| right; reflexivity | assumption | lra].
  do 3 f_equal. ring.
Qed.

Lemma crawl_from_start_position_witness :
  Rabs (1 / 2) <= max_speed (resting 0 1 0) /\ 1 / 2 <> 0 /\ 0 <= 2
  /\ get_position_velocity_and_motion_state
       (snd (set_target_position_and_velocity 0 3 (1 / 2) CRAWLING
               (resting 0 1 0))) 2
     = Ok (Angle.wrap (start_position (resting 0 1 0) + 1 / 2 * (2 - 0)),
           1 / 2, CRAWLING).
Proof.
  assert (H1 : Rabs (1 / 2) <= max_speed (resting 0 1 0))
    by (cbn; rewrite Rabs_right by lra; lra).
  assert (H2 : 1 / 2 <> 0) by lra.
  assert (H3 : 0 <= 2) by lra.
  repeat (split; [assumption |]).
  exact (crawl_from_start_position (resting 0 1 0) 0 3 (1 / 2) 2 H1 H2 H3).
Defined.

(** The velocity and motion state a query reports, arm by arm. *)
Lemma reported_velocity_cases (self : t) (tai p v : R) (m : MotionState) :
  unwrapped_position_velocity_and_motion_state self tai = Ok (p, v, m) ->
  (v = 0 /\ (m = STOPPED \/ m = PARKED))
  \/ (v = crawl_velocity self /\ v <> 0 /\ m = CRAWLING)
  \/ ((v = max_speed self \/ v = - max_speed self)
      /\ (m = MOVING \/ m = PARKING)).
Proof.
  unfold unwrapped_position_velocity_and_motion_state.
  destruct (which_arm self tai).
  - destruct (state_in _ [PARKING; PARKED]).
    { intro H. injection H as _ <- <-. left. tauto. }
    destruct (state_in _ [STOPPING; STOPPED]).
    { intro H. injection H as _ <- <-. left. tauto. }
    destruct (Req_dec_T (crawl_velocity self) 0) as [Hz | Hnz];
      intro H; injection H as _ <- <-; [left | right; left]; tauto.
  - discriminate.
  - destruct (py_div _ _); [| discriminate].
    destruct (MotionState_eqb _ PARKING).
    { intro H. injection H as _ <- <-. right. right.
      destruct (Rlt_dec _ 0); tauto. }
    destruct (MotionState_eqb _ STOPPING).
    { intro H. injection H as _ <- <-. left. tauto. }
    intro H. injection H as _ <- <-. right. right.
    destruct (Rlt_dec _ 0); tauto.
Qed.

Lemma get_from_unwrapped (self : t) (tai p v : R) (m : MotionState) :
  get_position_velocity_and_motion_state self tai = Ok (p, v, m) ->
  exists p0,
    unwrapped_position_velocity_and_motion_state self tai = Ok (p0, v, m)
    /\ p = Angle.wrap p0.
Proof.
  unfold get_position_velocity_and_motion_state.
  destruct (unwrapped_position_velocity_and_motion_state self tai)
    as [[[p0 v0] m0] | e]; [| discriminate].
  intro H. injection H as <- <- <-. eauto.
Qed.

(** X6: the speed a query reports never exceeds [max_speed], as long as the
    crawl velocity of the engine does not (which the check of line 100
    ensures for every accepted target). *)
Theorem reported_speed_bounded
    (self : t) (tai p v : R) (m : MotionState) :
  0 <= max_speed self -> Rabs (crawl_velocity self) <= max_speed self ->
  get_position_velocity_and_motion_state self tai = Ok (p, v, m) ->
  Rabs v <= max_speed self.
Proof.
  intros Hs Hc H. apply get_from_unwrapped in H as (p0 & H & _).
  destruct (reported_velocity_cases _ _ _ _ _ H)
    as [[-> _] | [[-> _] | [[-> | ->] _]]].
  - rewrite Rabs_R0. exact Hs.
  - exact Hc.
  - rewrite Rabs_right by lra. lra.
  - rewrite Rabs_Ropp, Rabs_right by lra. lra.
Qed.

Lemma reported_speed_bounded_witness :
  0 <= max_speed (mk 0 1 0 1 1 (1 / 10) MOVING)
  /\ Rabs (crawl_velocity (mk 0 1 0 1 1 (1 / 10) MOVING))
     <= max_speed (mk 0 1 0 1 1 (1 / 10) MOVING)
  /\ get_position_velocity_and_motion_state
       (mk 0 1 0 1 1 (1 / 10) MOVING) 1 = Ok (1, 1 / 10, CRAWLING)
  /\ Rabs (1 / 10) <= max_speed (mk 0 1 0 1 1 (1 / 10) MOVING).
Proof.
  assert (H1 : 0 <= max_speed (mk 0 1 0 1 1 (1 / 10) MOVING)) by (cbn; lra).
  assert (H2 : Rabs (crawl_velocity (mk 0 1 0 1 1 (1 / 10) MOVING))
               <= max_speed (mk 0 1 0 1 1 (1 / 10) MOVING))
    by (cbn; rewrite Rabs_right by lra; lra).
  assert (H3 : get_position_velocity_and_motion_state
                 (mk 0 1 0 1 1 (1 / 10) MOVING) 1
               = Ok (1, 1 / 10, CRAWLING)).
  { run_query. rewrite wrap_small by lra. do 3 f_equal. ring. }
  repeat (split; [assumption |]).
  exact (reported_speed_bounded _ 1 1 (1 / 10) CRAWLING H1 H2 H3).
Defined.

(** X7: a query never reports STOPPING, and with a positive [max_speed] it
    reports velocity 0 exactly together with STOPPED or PARKED. *)
Theorem zero_velocity_iff_at_rest
    (self : t) (tai p v : R) (m : MotionState) :
  0 < max_speed self ->
  get_position_velocity_and_motion_state self tai = Ok (p, v, m) ->
  m <> STOPPING /\ (v = 0 <-> m = STOPPED \/ m = PARKED).
Proof.
  intros Hs H. apply get_from_unwrapped in H as (p0 & H & _).
  destruct (reported_velocity_cases _ _ _ _ _ H)
    as [[-> [-> | ->]] | [[_ [Hnz ->]] | [[-> | ->] [-> | ->]]]];
    (split; [discriminate |]); split; intro Hx;
    solve [tauto | lra | destruct Hx; discriminate].
Qed.

Lemma zero_velocity_iff_at_rest_witness :
  0 < max_speed (mk 0 1 0 1 1 (1 / 10) MOVING)
  /\ get_position_velocity_and_motion_state
       (mk 0 1 0 1 1 (1 / 10) MOVING) 1 = Ok (1, 1 / 10, CRAWLING)
  /\ CRAWLING <> STOPPING
  /\ (1 / 10 = 0 <-> CRAWLING = STOPPED \/ CRAWLING = PARKED).
Proof.
  assert (H1 : 0 < max_speed (mk 0 1 0 1 1 (1 / 10) MOVING)) by (cbn; lra).
  assert (H3 : get_position_velocity_and_motion_state
                 (mk 0 1 0 1 1 (1 / 10) MOVING) 1
               = Ok (1, 1 / 10, CRAWLING)).
  { run_query. rewrite wrap_small by lra. do 3 f_equal. ring. }
  repeat (split; [assumption |]).
  exact (zero_velocity_iff_at_rest _ 1 1 (1 / 10) CRAWLING H1 H3).
Defined.

(** X8: stopping twice changes nothing: after a stop at [t1] and a second
    stop at [t2 >= t1], both return, and every query from [t2] on reports
    the position found by the first stop, at rest. *)
Theorem stop_twice (self : t) (t1 t2 : R) :
  start_tai self <= t1 -> t1 <= t2 ->
  exists p v m s1 s2,
    get_position_velocity_and_motion_state self t1 = Ok (p, v, m)
    /\ stop t1 self = (Ok tt, s1)
    /\ stop t2 s1 = (Ok tt, s2)
    /\ forall q : R, t2 <= q ->
         get_position_velocity_and_motion_state s2 q = Ok (p, 0, STOPPED).
Proof.
  intros H1 H12.
  destruct (answered_returns self t1) as (p & v & m & H & Hp);
    [right; exact H1 |].
  exists p, v, m. do 2 eexists. split; [exact H |].
  split; [apply (stop_returns _ _ _ _ _ H) |].
  assert (H2 : get_position_velocity_and_motion_state
                 (mk p (max_speed self) t1 p (end_tai self) 0 STOPPING) t2
               = Ok (p, 0, STOPPED))
    by (apply stopped_state_query; assumption).
  split; [apply (stop_returns _ _ _ _ _ H2) |].
  intros q Hq. cbn [max_speed end_tai].
  apply stopped_state_query; assumption.
Qed.

Lemma stop_twice_witness :
  start_tai (resting 0 1 0) <= 1 /\ 1 <= 2
  /\ exists p v m s1 s2,
       get_position_velocity_and_motion_state (resting 0 1 0) 1
       = Ok (p, v, m)
       /\ stop 1 (resting 0 1 0) = (Ok tt, s1)
       /\ stop 2 s1 = (Ok tt, s2)
       /\ forall q : R, 2 <= q ->
            get_position_velocity_and_motion_state s2 q
            = Ok (p, 0, STOPPED).
Proof.
  assert (H1 : start_tai (resting 0 1 0) <= 1) by (cbn; lra).
  assert (H2 : 1 <= 2) by lra.
  repeat (split; [assumption |]).
  exact (stop_twice (resting 0 1 0) 1 2 H1 H2).
Defined.

(** X9: while parking, the engine travels down to 0 at [max_speed]: after
    a park at [tai] from position [p], a query at [q] inside the transit
    leg reports position [p - max_speed * (q - tai)], velocity
    [- max_speed] and PARKING. *)
Theorem parking_transit (self : t) (tai q p v : R) (m : MotionState) :
  0 < max_speed self ->
  get_position_velocity_and_motion_state self tai = Ok (p, v, m) ->
  tai <= q -> q < end_tai (snd (park tai self)) ->
  get_position_velocity_and_motion_state (snd (park tai self)) q
  = Ok (p - max_speed self * (q - tai), - max_speed self, PARKING).
Proof.
  intros Hs H Hq. rewrite (park_returns _ _ _ _ _ H) by lra.
  cbn [snd end_tai]. intro Hend.
  assert (Hp : 0 <= p < 2 * PI).
  { apply get_from_unwrapped in H as (p0 & _ & ->). apply wrap_range. }
  assert (Hd : Rabs (0 - p) / max_speed self = p / max_speed self).
  { rewrite Rabs_left1 by lra. f_equal. ring. }
  rewrite Hd in *.
  assert (Hpos : 0 < p / max_speed self) by lra.
  assert (Hp0 : 0 < p).
  { destruct (Req_dec_T p 0) as [Hz | Hnz]; [| lra].
    rewrite Hz in Hpos. unfold Rdiv in Hpos. rewrite Rmult_0_l in Hpos. lra. }
  assert (Hlin : p + (0 - p) * ((q - tai) / (tai + p / max_speed self - tai))
                 = p - max_speed self * (q - tai)) by (field; lra).
  assert (Hin : max_speed self * (q - tai) < p).
  { apply (Rmult_lt_reg_r (/ max_speed self));
      [apply Rinv_0_lt_compat, Hs |].
    replace (max_speed self * (q - tai) * / max_speed self) with (q - tai)
      by (field; lra).
    unfold Rdiv in Hend. lra. }
  assert (Hge : 0 <= max_speed self * (q - tai))
    by (apply Rmult_le_pos; lra).
  unfold get_position_velocity_and_motion_state,
    unwrapped_position_velocity_and_motion_state, which_arm, py_div,
    _get_distance.
  cbn [start_position max_speed start_tai end_position end_tai
       crawl_velocity commanded_motion_state MotionState_eqb].
  destruct (Rge_dec q _) as [Hx | _]; [lra |].
  destruct (Rlt_dec q tai) as [Hx | _]; [lra |].
  destruct (Req_dec_T _ 0) as [Hx | _]; [lra |].
  destruct (Rlt_dec (0 - p) 0) as [_ | Hx]; [| lra].
  rewrite Hlin, wrap_id by lra. reflexivity.
Qed.

Lemma parking_transit_witness :
  let self := mk 1 (1 / 2) 0 1 0 0 STOPPED in
  0 < max_speed self
  /\ get_position_velocity_and_motion_state self 5 = Ok (1, 0, STOPPED)
  /\ 5 <= 6 /\ 6 < end_tai (snd (park 5 self))
  /\ get_position_velocity_and_motion_state (snd (park 5 self)) 6
     = Ok (1 - max_speed self * (6 - 5), - max_speed self, PARKING).
Proof.
  cbv zeta.
  assert (H1 : 0 < max_speed (mk 1 (1 / 2) 0 1 0 0 STOPPED)) by (cbn; lra).
  assert (H2 : get_position_velocity_and_motion_state
                 (mk 1 (1 / 2) 0 1 0 0 STOPPED) 5 = Ok (1, 0, STOPPED)).
  { run_query. rewrite wrap_small by lra. reflexivity. }
  assert (H3 : 5 <= 6) by lra.
  assert (H4 : 6 < end_tai (snd (park 5 (mk 1 (1 / 2) 0 1 0 0 STOPPED)))).
  { rewrite (park_returns _ _ _ _ _ H2) by (cbn; lra). cbn [snd end_tai max_speed].
    replace (Rabs (0 - 1)) with 1
      by (rewrite Rabs_left by lra; ring). lra. }
  repeat (split; [assumption |]).
  exact (parking_transit _ 5 6 1 0 STOPPED H1 H2 H3 H4).
Defined.

(** X10: parking again once parked is immediate: after a park at [t1] has
    completed, a second park at [t2] returns [t2] itself as its end time
    and every query from [t2] on still reports position 0, velocity 0,
    PARKED. *)
Theorem park_when_parked (self : t) (t1 t2 : R) :
  0 < max_speed self -> answered self t1 ->
  end_tai (snd (park t1 self)) <= t2 ->
  exists r s2,
    park t2 (snd (park t1 self)) = (Ok r, s2) /\ r = t2
    /\ forall q : R, t2 <= q ->
         get_position_velocity_and_motion_state s2 q = Ok (0, 0, PARKED).
Proof.
  intros Hs Hans.
  destruct (answered_returns self t1 Hans) as (p & v & m & H & Hp).
  rewrite (park_returns _ _ _ _ _ H) by lra. cbn [snd end_tai]. intro Hend.
  assert (H2 : get_position_velocity_and_motion_state
                 (mk p (max_speed self) t1 0
                     (t1 + Rabs (0 - p) / max_speed self) 0 PARKING) t2
               = Ok (0, 0, PARKED))
    by (apply parking_state_query; assumption).
  rewrite (park_returns _ _ _ _ _ H2) by (cbn; lra). cbn [max_speed].
  assert (Hz : Rabs (0 - 0) / max_speed self = 0).
  { replace (0 - 0) with 0 by ring. rewrite Rabs_R0. unfold Rdiv. ring. }
  do 2 eexists. split; [reflexivity |]. split; [lra |].
  intros q Hq. apply parking_state_query; [| assumption | lra].
  pose proof PI_RGT_0. lra.
Qed.

Lemma park_when_parked_witness :
  0 < max_speed (resting 0 1 0) /\ answered (resting 0 1 0) 1
  /\ end_tai (snd (park 1 (resting 0 1 0))) <= 2
  /\ exists r s2,
       park 2 (snd (park 1 (resting 0 1 0))) = (Ok r, s2) /\ r = 2
       /\ forall q : R, 2 <= q ->
            get_position_velocity_and_motion_state s2 q = Ok (0, 0, PARKED).
Proof.
  assert (H1 : 0 < max_speed (resting 0 1 0)) by (cbn; lra).
  assert (H2 : answered (resting 0 1 0) 1) by (right; cbn; lra).
  assert (H3 : end_tai (snd (park 1 (resting 0 1 0))) <= 2).
  { assert (Hq : get_position_velocity_and_motion_state (resting 0 1 0) 1
                 = Ok (0, 0, STOPPED)).
    { unfold resting. run_query. rewrite wrap_0. reflexivity. }
    rewrite (park_returns _ _ _ _ _ Hq) by (cbn; lra).
    cbn [snd end_tai resting max_speed].
    replace (0 - 0) with 0 by ring. rewrite Rabs_R0. lra. }
  repeat (split; [assumption |]).
  exact (park_when_parked (resting 0 1 0) 1 2 H1 H2 H3).
Defined.

(** X11: a target issued on a stopped engine is continuous.  [stop] leaves
    the start position at the position it found, so a valid move or crawl
    command issued at or after the stop reports, at its time of issue, the
    position the engine was stopped at. *)
Theorem target_after_stop_continuous
    (self : t) (t0 tai e c p v : R) (m ms : MotionState) :
  0 < max_speed self ->
  get_position_velocity_and_motion_state self t0 = Ok (p, v, m) ->
  valid_target self c ms ->
  exists d v' m',
    fst (set_target_position_and_velocity tai e c ms (snd (stop t0 self)))
    = Ok d
    /\ get_position_velocity_and_motion_state
         (snd (set_target_position_and_velocity tai e c ms
                 (snd (stop t0 self)))) tai
       = Ok (p, v', m').
Proof.
  intros Hs H [Hc Hms].
  assert (Hp : 0 <= p < 2 * PI).
  { apply get_from_unwrapped in H as (p0 & _ & ->). apply wrap_range. }
  rewrite (stop_returns _ _ _ _ _ H). cbn [snd].
  destruct Hms as [-> | ->].
  - rewrite set_target_moving by (cbn [max_speed]; lra).
    cbn [fst snd start_position max_speed].
    pose proof (duration_nonneg (e - p) _ Hs) as Hd.
    exists (Rabs (e - p) / max_speed self). unfold get_position_velocity_and_motion_state,
      unwrapped_position_velocity_and_motion_state, which_arm, py_div,
      _get_distance.
    cbn [start_position max_speed start_tai end_position end_tai
         crawl_velocity commanded_motion_state state_in existsb
         MotionState_eqb orb].
    destruct (Rge_dec tai _) as [Hge | Hlt].
    + assert (Hz : e - p = 0) by (apply (duration_zero _ _ Hs); lra).
      assert (He : e = p) by lra. subst e.
      replace (p - p) with 0 by ring. rewrite Rabs_R0.
      replace (p + c * (tai - (tai + 0 / max_speed self))) with p
        by (field; lra).
      destruct (Req_dec_T c 0); rewrite wrap_id by assumption; eauto.
    + destruct (Rlt_dec tai tai) as [Hx | _]; [lra |].
      destruct (Req_dec_T _ 0) as [Hx | _]; [lra |].
      replace (tai - tai) with 0 by ring.
      match goal with
      | |- context [0 / ?x] => replace (0 / x) with 0 by (unfold Rdiv; ring)
      end.
      rewrite Rmult_0_r, Rplus_0_r, wrap_id by assumption. eauto.
  - rewrite set_target_crawling by (cbn [max_speed]; lra).
    cbn [fst snd start_position max_speed].
    exists 0. unfold get_position_velocity_and_motion_state,
      unwrapped_position_velocity_and_motion_state, which_arm.
    cbn [start_position max_speed start_tai end_position end_tai
         crawl_velocity commanded_motion_state state_in existsb
         MotionState_eqb orb].
    destruct (Rge_dec tai (tai + 0)) as [_ | Hx]; [| lra].
    replace (p + c * (tai - (tai + 0))) with p by ring.
    destruct (Req_dec_T c 0); rewrite wrap_id by assumption; eauto.
Qed.

Lemma target_after_stop_continuous_witness :
  let self := mk 0 1 0 1 1 0 MOVING in
  0 < max_speed self
  /\ get_position_velocity_and_motion_state self 5 = Ok (1, 0, STOPPED)
  /\ valid_target self 0 MOVING
  /\ exists d v' m',
       fst (set_target_position_and_velocity 6 2 0 MOVING (snd (stop 5 self)))
       = Ok d
       /\ get_position_velocity_and_motion_state
            (snd (set_target_position_and_velocity 6 2 0 MOVING
                    (snd (stop 5 self)))) 6
          = Ok (1, v', m').
Proof.
  cbv zeta.
  assert (H1 : 0 < max_speed (mk 0 1 0 1 1 0 MOVING)) by (cbn; lra).
  assert (H2 : get_position_velocity_and_motion_state
                 (mk 0 1 0 1 1 0 MOVING) 5 = Ok (1, 0, STOPPED)).
  { run_query. rewrite wrap_small by lra.
    replace (1 + 0 * (5 - 1)) with 1 by ring. reflexivity. }
  assert (H3 : valid_target (mk 0 1 0 1 1 0 MOVING) 0 MOVING).
  { split; [cbn; rewrite Rabs_R0; lra | left; reflexivity]. }
  repeat (split; [assumption |]).
  exact (target_after_stop_continuous _ 5 6 2 0 1 0 STOPPED MOVING H1 H2 H3).
Defined.

(** X12: no command changes [max_speed], and every command that returns
    leaves a crawl velocity within it: the one the check of line 100 let
    through, or 0 after [stop] and [park]. *)
Theorem commands_keep_speed_limit (self self' : t) :
  0 <= max_speed self ->
  (exists tai e c m d,
     set_target_position_and_velocity tai e c m self = (Ok d, self'))
  \/ (exists tai, stop tai self = (Ok tt, self'))
  \/ (exists tai r, park tai self = (Ok r, self')) ->
  max_speed self' = max_speed self
  /\ Rabs (crawl_velocity self') <= max_speed self'.
Proof.
  intros Hs [(tai & e & c & m & d & H) | [(tai & H) | (tai & r & H)]].
  - unfold set_target_position_and_velocity in H. unfold_method in H.
    destruct (Rgt_dec (Rabs c) (max_speed self)); [discriminate |].
    destruct m; cbn in H; try discriminate.
    + destruct (py_div _ _); [| discriminate].
      injection H as _ Hs'. subst self'. cbn. split; [reflexivity | lra].
    + injection H as _ Hs'. subst self'. cbn. split; [reflexivity | lra].
  - destruct (get_position_velocity_and_motion_state self tai)
      as [[[p v] m] | e] eqn:Hq.
    + rewrite (stop_returns _ _ _ _ _ Hq) in H. injection H as Hs'.
      subst self'. cbn. rewrite Rabs_R0. split; [reflexivity | lra].
    + rewrite (stop_raises _ _ _ Hq) in H. discriminate.
  - unfold park in H. unfold_method in H.
    destruct (get_position_velocity_and_motion_state self tai)
      as [[[p v] m] | e]; [| discriminate].
    cbn in H. destruct (py_div _ _); [| discriminate].
    injection H as _ Hs'. subst self'. cbn. rewrite Rabs_R0.
    split; [reflexivity | lra].
Qed.

Lemma commands_keep_speed_limit_witness :
  0 <= max_speed (resting 0 1 0)
  /\ max_speed (mk 0 1 0 2 2 0 MOVING) = max_speed (resting 0 1 0)
  /\ Rabs (crawl_velocity (mk 0 1 0 2 2 0 MOVING))
     <= max_speed (mk 0 1 0 2 2 0 MOVING).
Proof.
  assert (H1 : 0 <= max_speed (resting 0 1 0)) by (cbn; lra).
  split; [exact H1 |].
  apply (commands_keep_speed_limit (resting 0 1 0) (mk 0 1 0 2 2 0 MOVING) H1).
  left. exists 0, 2, 0, MOVING, 2. apply move_from_rest. lra.
Defined.

(** * Further properties of the status mock *)

Lemma set_llc_status_twice
    (a b : option AmcsStatus.LlcStatus) (self : AmcsStatus.t) :
  AmcsStatus.set_llc_status a (AmcsStatus.set_llc_status b self)
  = AmcsStatus.set_llc_status a self.
Proof. reflexivity. Qed.

Lemma set_llc_status_same (self : AmcsStatus.t) :
  AmcsStatus.set_llc_status (AmcsStatus.llc_status self) self = self.
Proof. destruct self. reflexivity. Qed.

Lemma determine_status_stopped (self : AmcsStatus.t) (current_tai : R) :
  AmcsStatus.status self = STOPPED ->
  AmcsStatus.determine_status current_tai self
  = (Ok tt,
     AmcsStatus.set_llc_status
       (Some (AmcsStatus.snapshot current_tai self)) self).
Proof.
  intro Hst. destruct_status self.
  cbn [AmcsStatus.status] in Hst. subst st. reflexivity.
Qed.

(** X13: a stopped mock holds its position: with status STOPPED, any
    number of [determine_status] calls returns and changes nothing but the
    published dictionary [llc_status]. *)
Theorem stopped_polls_hold (times : list R) (self : AmcsStatus.t) :
  AmcsStatus.status self = STOPPED ->
  fst (AmcsStatus.polls times self) = Ok tt
  /\ AmcsStatus.set_llc_status (AmcsStatus.llc_status self)
       (snd (AmcsStatus.polls times self)) = self.
Proof.
  revert self. induction times as [| current_tai later IH]; intros self Hst.
  - split; [reflexivity | apply set_llc_status_same].
  - assert (Hstep : AmcsStatus.polls (current_tai :: later) self
                    = AmcsStatus.polls later
                        (AmcsStatus.set_llc_status
                           (Some (AmcsStatus.snapshot current_tai self))
                           self)).
    { cbn [AmcsStatus.polls]. unfold Method.bind.
      rewrite (determine_status_stopped _ _ Hst). reflexivity. }
    rewrite Hstep.
    destruct (IH (AmcsStatus.set_llc_status
                    (Some (AmcsStatus.snapshot current_tai self)) self))
      as [Hok Hsame].
    { destruct self. exact Hst. }
    split; [exact Hok |].
    apply (f_equal (AmcsStatus.set_llc_status (AmcsStatus.llc_status self)))
      in Hsame.
    rewrite !set_llc_status_twice in Hsame. rewrite Hsame.
    apply set_llc_status_same.
Qed.

Lemma stopped_polls_hold_witness :
  AmcsStatus.status (AmcsStatus.init 3 1 4 0) = STOPPED
  /\ fst (AmcsStatus.polls [1; 2; 3] (AmcsStatus.init 3 1 4 0)) = Ok tt
  /\ AmcsStatus.set_llc_status
       (AmcsStatus.llc_status (AmcsStatus.init 3 1 4 0))
       (snd (AmcsStatus.polls [1; 2; 3] (AmcsStatus.init 3 1 4 0)))
     = AmcsStatus.init 3 1 4 0.
Proof.
  assert (H : AmcsStatus.status (AmcsStatus.init 3 1 4 0) = STOPPED)
    by reflexivity.
  split; [exact H |].
  exact (stopped_polls_hold [1; 2; 3] (AmcsStatus.init 3 1 4 0) H).
Defined.

Lemma polls_app (times : list R) (current_tai : R) (self : AmcsStatus.t) :
  fst (AmcsStatus.polls times self) = Ok tt ->
  AmcsStatus.polls (times ++ [current_tai]) self
  = AmcsStatus.determine_status current_tai
      (snd (AmcsStatus.polls times self)).
Proof.
  revert self. induction times as [| t later IH]; intros self Hok.
  - cbn [app AmcsStatus.polls]. unfold Method.bind, Method.ret. cbn [snd].
    destruct (AmcsStatus.determine_status current_tai self) as [[[] | e] s'];
      reflexivity.
  - cbn [app AmcsStatus.polls] in *. unfold Method.bind in *.
    destruct (AmcsStatus.determine_status t self) as [[[] | e] s'];
      [apply IH, Hok | discriminate Hok].
Qed.






Ltac status_fields :=
  cbn [AmcsStatus.status AmcsStatus.motion_velocity AmcsStatus.crawl_velocity
       AmcsStatus.position_orig AmcsStatus.position_actual
       AmcsStatus.position_commanded AmcsStatus.command_time_tai
       AmcsStatus.vmax AmcsStatus.llc_status AmcsStatus.fans_enabled
       AmcsStatus.seal_inflated] in *.

(** X15: a move travels at [vmax] and arrives.  After [moveAz] at [tai]
    from position [pa0], a [determine_status] at [current_tai] returns;
    while [vmax * (current_tai - tai)] is short of the distance the status
    is MOVING and the position is [pa0] advanced at [vmax] towards the
    target; from then on the position is the target itself and the mock
    switches to the crawl velocity: CRAWLING, or STOPPED when it is 0. *)
Theorem move_poll
    (self : AmcsStatus.t) (position velocity tai current_tai pa0 vm : R) :
  AmcsStatus.position_actual self = Float.Fin pa0 ->
  AmcsStatus.vmax self = Float.Fin vm -> 0 < vm ->
  fst (AmcsStatus.determine_status current_tai
         (snd (AmcsStatus.moveAz (Float.Fin position) (Float.Fin velocity)
                 tai self))) = Ok tt
  /\ (vm * (current_tai - tai) < Rabs (position - pa0) ->
      AmcsStatus.status
        (snd (AmcsStatus.determine_status current_tai
                (snd (AmcsStatus.moveAz (Float.Fin position)
                        (Float.Fin velocity) tai self)))) = MOVING
      /\ AmcsStatus.position_actual
           (snd (AmcsStatus.determine_status current_tai
                   (snd (AmcsStatus.moveAz (Float.Fin position)
                           (Float.Fin velocity) tai self))))
         = Float.Fin (pa0 + (if Rlt_dec position pa0 then - vm else vm)
                            * (current_tai - tai)))
  /\ (Rabs (position - pa0) <= vm * (current_tai - tai) ->
      AmcsStatus.position_actual
        (snd (AmcsStatus.determine_status current_tai
                (snd (AmcsStatus.moveAz (Float.Fin position)
                        (Float.Fin velocity) tai self))))
      = Float.Fin position
      /\ AmcsStatus.status
           (snd (AmcsStatus.determine_status current_tai
                   (snd (AmcsStatus.moveAz (Float.Fin position)
                           (Float.Fin velocity) tai self))))
         = (if Req_dec_T velocity 0 then STOPPED else CRAWLING)
      /\ AmcsStatus.motion_velocity
           (snd (AmcsStatus.determine_status current_tai
                   (snd (AmcsStatus.moveAz (Float.Fin position)
                           (Float.Fin velocity) tai self))))
         = Float.Fin velocity).
Proof.
  intros Hpa Hvm Hpos. destruct_status self. status_fields.
  subst actual vmax. run_status.
  unfold Rabs. destruct (Rcase_abs (position - pa0));
    destruct (Req_dec_T velocity 0);
    decide_all; try lra;
    (split; [reflexivity |]); split; intro Hx; try lra;
    repeat split; reflexivity.
Qed.

Lemma move_poll_witness :
  AmcsStatus.position_actual (AmcsStatus.init 3 1 4 0) = Float.Fin 0
  /\ AmcsStatus.vmax (AmcsStatus.init 3 1 4 0) = Float.Fin 4 /\ 0 < 4
  /\ fst (AmcsStatus.determine_status 1
            (snd (AmcsStatus.moveAz (Float.Fin 10) (Float.Fin 0) 0
                    (AmcsStatus.init 3 1 4 0)))) = Ok tt.
Proof.
  assert (H1 : AmcsStatus.position_actual (AmcsStatus.init 3 1 4 0)
               = Float.Fin 0) by reflexivity.
  assert (H2 : AmcsStatus.vmax (AmcsStatus.init 3 1 4 0) = Float.Fin 4)
    by reflexivity.
  assert (H3 : 0 < 4) by lra.
  repeat (split; [assumption |]).
  exact (proj1 (move_poll (AmcsStatus.init 3 1 4 0) 10 0 0 1 0 4 H1 H2 H3)).
Defined.




(** X17: the first poll after a park.  After [park] at [tai] from
    position [pa0], the first [determine_status], at [current_tai],
    returns; if [vmax * (current_tai - tai)] is short of [pa0] it reports
    status PARKING and position [pa0 - vmax * (current_tai - tai)];
    otherwise it reports PARKED, position 0 and motion velocity 0.  (What
    the polls after that one report is the next property.) *)
Theorem park_poll (self : AmcsStatus.t) (tai current_tai pa0 vm : R) :
  AmcsStatus.position_actual self = Float.Fin pa0 ->
  AmcsStatus.vmax self = Float.Fin vm -> 0 < vm ->
  fst (AmcsStatus.determine_status current_tai
         (snd (AmcsStatus.park tai self))) = Ok tt
  /\ (vm * (current_tai - tai) < pa0 ->
      AmcsStatus.status
        (snd (AmcsStatus.determine_status current_tai
                (snd (AmcsStatus.park tai self)))) = PARKING
      /\ AmcsStatus.position_actual
           (snd (AmcsStatus.determine_status current_tai
                   (snd (AmcsStatus.park tai self))))
         = Float.Fin (pa0 + - vm * (current_tai - tai)))
  /\ (pa0 <= vm * (current_tai - tai) ->
      AmcsStatus.status
        (snd (AmcsStatus.determine_status current_tai
                (snd (AmcsStatus.park tai self)))) = PARKED
      /\ AmcsStatus.position_actual
           (snd (AmcsStatus.determine_status current_tai
                   (snd (AmcsStatus.park tai self)))) = Float.Fin 0
      /\ AmcsStatus.motion_velocity
           (snd (AmcsStatus.determine_status current_tai
                   (snd (AmcsStatus.park tai self)))) = Float.Fin 0).
Proof.
  intros Hpa Hvm Hpos. destruct_status self. status_fields.
  subst actual vmax. run_status.
  decide_all; try lra;
    (split; [reflexivity |]); split; intro Hx; try lra;
    repeat split; reflexivity.
Qed.

Lemma park_poll_witness :
  let self :=
    snd (AmcsStatus.determine_status 3
           (snd (AmcsStatus.moveAz (Float.Fin 8) (Float.Fin 0) 0
                   (AmcsStatus.init 3 1 4 0)))) in
  AmcsStatus.position_actual self = Float.Fin 8
  /\ AmcsStatus.vmax self = Float.Fin 4 /\ 0 < 4
  /\ 8 <= 4 * (12 - 10)
  /\ AmcsStatus.status
       (snd (AmcsStatus.determine_status 12
               (snd (AmcsStatus.park 10 self)))) = PARKED
  /\ AmcsStatus.position_actual
       (snd (AmcsStatus.determine_status 12
               (snd (AmcsStatus.park 10 self)))) = Float.Fin 0.
Proof.
  cbv zeta.
  set (self := snd (AmcsStatus.determine_status 3
                      (snd (AmcsStatus.moveAz (Float.Fin 8) (Float.Fin 0) 0
                              (AmcsStatus.init 3 1 4 0))))).
  assert (H1 : AmcsStatus.position_actual self = Float.Fin 8).
  { unfold self, AmcsStatus.init. run_status. decide_all; try lra; reflexivity. }
  assert (H2 : AmcsStatus.vmax self = Float.Fin 4).
  { unfold self, AmcsStatus.init. run_status. decide_all; try lra; reflexivity. }
  assert (H3 : 0 < 4) by lra.
  assert (H4 : 8 <= 4 * (12 - 10)) by lra.
  repeat (split; [assumption |]).
  destruct (proj2 (proj2 (park_poll self 10 12 8 4 H1 H2 H3)) H4)
    as (Hst & Hpos & _).
  split; [exact Hst | exact Hpos].
Defined.

(** The arrival of a park leaves the fields of a parked mock, with the
    origin and the command time of the park. *)
Lemma park_arrival_parked
    (self : AmcsStatus.t) (tai current_tai pa0 vm : R) :
  AmcsStatus.position_actual self = Float.Fin pa0 ->
  AmcsStatus.vmax self = Float.Fin vm -> 0 < vm ->
  pa0 <= vm * (current_tai - tai) ->
  fst (AmcsStatus.determine_status current_tai
         (snd (AmcsStatus.park tai self))) = Ok tt
  /\ AmcsStatus.parked_from pa0 tai
       (snd (AmcsStatus.determine_status current_tai
               (snd (AmcsStatus.park tai self)))).
Proof.
  intros Hpa Hvm Hpos. destruct_status self. status_fields.
  subst actual vmax. unfold AmcsStatus.parked_from. run_status.
  decide_all; try lra; intro Hx; try lra; repeat split; reflexivity.
Qed.

(** One poll of a parked mock: the position is recomputed from the origin
    of the park, everything else stays. *)
Lemma parked_poll (o tai current_tai : R) (self : AmcsStatus.t) :
  AmcsStatus.parked_from o tai self ->
  fst (AmcsStatus.determine_status current_tai self) = Ok tt
  /\ AmcsStatus.parked_from o tai
       (snd (AmcsStatus.determine_status current_tai self))
  /\ AmcsStatus.position_actual
       (snd (AmcsStatus.determine_status current_tai self))
     = Float.Fin o.
Proof.
  intros (Hst & Hmv & Ho & Ht). destruct_status self. status_fields.
  subst st mv orig ctt. unfold AmcsStatus.parked_from. run_status.
  decide_all; try lra; repeat split; try reflexivity.
  f_equal. ring.
Qed.

Lemma parked_polls (o tai : R) (times : list R) (self : AmcsStatus.t) :
  AmcsStatus.parked_from o tai self ->
  fst (AmcsStatus.polls times self) = Ok tt
  /\ AmcsStatus.parked_from o tai (snd (AmcsStatus.polls times self)).
Proof.
  revert self. induction times as [| t later IH]; intros self Hc.
  - split; [reflexivity | exact Hc].
  - destruct (parked_poll o tai t self Hc) as (Hok & Hc' & _).
    cbn [AmcsStatus.polls]. unfold Method.bind.
    destruct (AmcsStatus.determine_status t self) as [[[] | e] s'];
      [| discriminate Hok].
    apply IH, Hc'.
Qed.

(** X21: a parked mock does not hold position 0.  Line 85 skips only
    STOPPED, so once the park issued at [tai] from position [pa0] has
    arrived (at the poll at [t1], which reports position 0), every later
    [determine_status] recomputes [position_orig + 0 * time_diff]: it
    returns with status PARKED and reports the position [pa0] the park
    started from. *)
Theorem parked_polls_back_at_origin
    (self : AmcsStatus.t) (tai t1 pa0 vm : R) (times : list R) (t2 : R) :
  AmcsStatus.position_actual self = Float.Fin pa0 ->
  AmcsStatus.vmax self = Float.Fin vm -> 0 < vm ->
  pa0 <= vm * (t1 - tai) ->
  fst (AmcsStatus.polls (t1 :: times ++ [t2])
         (snd (AmcsStatus.park tai self))) = Ok tt
  /\ AmcsStatus.status
       (snd (AmcsStatus.polls (t1 :: times ++ [t2])
               (snd (AmcsStatus.park tai self)))) = PARKED
  /\ AmcsStatus.position_actual
       (snd (AmcsStatus.polls (t1 :: times ++ [t2])
               (snd (AmcsStatus.park tai self)))) = Float.Fin pa0.
Proof.
  intros Hpa Hvm Hpos Harr.
  destruct (park_arrival_parked self tai t1 pa0 vm Hpa Hvm Hpos Harr)
    as [Hok1 Hc].
  cbn [AmcsStatus.polls]. unfold Method.bind at 1 2 3.
  destruct (AmcsStatus.determine_status t1 _) as [[[] | e] s2];
    [| discriminate Hok1].
  cbn [snd] in Hc.
  destruct (parked_polls _ _ times _ Hc) as [Hok Hc'].
  rewrite (polls_app _ _ _ Hok).
  destruct (parked_poll _ _ t2 _ Hc') as (Hok' & Hc'' & Hp).
  split; [exact Hok' |]. split; [apply Hc'' | exact Hp].
Qed.

Lemma parked_polls_back_at_origin_witness :
  let self :=
    snd (AmcsStatus.determine_status 3
           (snd (AmcsStatus.moveAz (Float.Fin 8) (Float.Fin 0) 0
                   (AmcsStatus.init 3 1 4 0)))) in
  AmcsStatus.position_actual self = Float.Fin 8
  /\ AmcsStatus.vmax self = Float.Fin 4 /\ 0 < 4
  /\ 8 <= 4 * (12 - 10)
  /\ AmcsStatus.position_actual
       (snd (AmcsStatus.polls (12 :: [] ++ [13])
               (snd (AmcsStatus.park 10 self)))) = Float.Fin 8.
Proof.
  cbv zeta.
  set (self := snd (AmcsStatus.determine_status 3
                      (snd (AmcsStatus.moveAz (Float.Fin 8) (Float.Fin 0) 0
                              (AmcsStatus.init 3 1 4 0))))).
  assert (H1 : AmcsStatus.position_actual self = Float.Fin 8).
  { unfold self, AmcsStatus.init. run_status. decide_all; try lra; reflexivity. }
  assert (H2 : AmcsStatus.vmax self = Float.Fin 4).
  { unfold self, AmcsStatus.init. run_status. decide_all; try lra; reflexivity. }
  assert (H3 : 0 < 4) by lra.
  assert (H4 : 8 <= 4 * (12 - 10)) by lra.
  repeat (split; [assumption |]).
  exact (proj2 (proj2 (parked_polls_back_at_origin
                         self 10 12 8 4 [] 13 H1 H2 H3 H4))).
Defined.






(** X20: [inflate] and [fans] do not touch the motion: whatever the action,
    and whether they return or raise, they leave the status, the
    velocities and the three positions as they were, and they set
    [command_time_tai] to the time of the call (lines 231 and 246). *)
Theorem auxiliary_commands_frame
    (self : AmcsStatus.t) (action : string) (tai : R) :
  AmcsStatus.same_motion (snd (AmcsStatus.inflate action tai self)) self
  /\ AmcsStatus.command_time_tai (snd (AmcsStatus.inflate action tai self))
     = tai
  /\ AmcsStatus.same_motion (snd (AmcsStatus.fans action tai self)) self
  /\ AmcsStatus.command_time_tai (snd (AmcsStatus.fans action tai self))
     = tai.
Proof.
  unfold AmcsStatus.same_motion. destruct_status self. run_status.
  destruct (AmcsStatus.OnOff_getitem action); run_status;
    repeat split; reflexivity.
Qed.
